(** * Usability.py: record store, session timer and report aggregation

    A shallow embedding of [src/Usability.py].  The script is a Streamlit
    page: every user interaction re-runs [main] from top to bottom with the
    current widget values, the session dictionary and the files on disk.

    Conventions of the model
    - A Python [float] is an exact rational ([Q]) or NaN; rounding, overflow
      and infinities are outside the model.  An [int] is unbounded ([Z]).
    - A CSV file is a list of lines and a line a list of cells; quoting and
      escaping of delimiters (which [to_csv] and [read_csv] invert) are left
      out.  The text of a string, an int or a bool is kept as text, so that
      what [read_csv] re-interprets (empty text, NA markers, digits, boolean
      words) is visible; the text of a float is kept as the number it
      denotes ([CFloat]).
    - An exception is a value of [exn] carried by [result]. *)

From Stdlib Require Import ZArith QArith Qreduction String Ascii List Bool Lia.
From Stdlib Require Import DecimalString DecimalZ Lqa.
From stdpp Require Import gmap strings list.

Open Scope string_scope.
Open Scope Z_scope.
Open Scope list_scope.

(** ** Python values and exceptions *)

Inductive scalar :=
| SStr (s : string)
| SInt (z : Z)
| SFloat (q : Q)
| SBool (b : bool)
| SNaN.

Inductive exn :=
| EmptyDataError
| ParserError
| KeyError (k : string)
| TypeError
| LinAlgError
| IndexError.

Inductive result (A : Type) :=
| Ok (a : A)
| Raise (e : exn).
Arguments Ok {A} a.
Arguments Raise {A} e.

#[global] Instance result_bind : MBind result := fun A B k r =>
  match r with
  | Ok a => k a
  | Raise e => Raise e
  end.

Definition raises {A} (r : result A) : bool :=
  match r with Ok _ => false | Raise _ => true end.

(** A record is a Python dict: field names in insertion order. *)
Definition record := list (string * scalar).

Definition keys (r : record) : list string := map fst r.
Definition values (r : record) : list scalar := map snd r.

(** ** DataFrame *)

Record DataFrame := mkDataFrame {
  columns : list string;
  rows : list (list scalar)
}.

(** [pd.DataFrame()] *)
Definition empty_frame : DataFrame := mkDataFrame [] [].

(** [pd.DataFrame([data_dict])] *)
Definition frame_of_dict (d : record) : DataFrame :=
  mkDataFrame (keys d) [values d].

(** [df.empty]: some axis has length 0. *)
Definition empty (df : DataFrame) : bool :=
  match columns df, rows df with
  | [], _ => true
  | _, [] => true
  | _, _ => false
  end.


(** ** Text of scalars *)

Definition str_int (z : Z) : string := NilZero.string_of_int (Z.to_int z).

Definition str_bool (b : bool) : string := if b then "True" else "False".

(** ** CSV cells *)

Inductive cell :=
| CText (s : string)
| CFloat (q : Q).

Abbreviation csv := (list (list cell)).

(** What [to_csv] writes for a value; NaN is written as the empty text
    ([na_rep=""]). *)
Definition to_cell (v : scalar) : cell :=
  match v with
  | SStr s => CText s
  | SInt z => CText (str_int z)
  | SFloat q => CFloat q
  | SBool b => CText (str_bool b)
  | SNaN => CText ""
  end.

(** [df.to_csv(f, mode="w", header=True, index=False)] writes the header and
    the rows; [mode="a", header=False] adds the rows after what is there. *)
Definition to_csv_lines (df : DataFrame) (header : bool) : csv :=
  (if header then [map CText (columns df)] else []) ++ map (map to_cell) (rows df).

(** ** Reading numbers and words back *)

Definition is_digit (a : ascii) : bool :=
  ((48 <=? nat_of_ascii a) && (nat_of_ascii a <=? 57))%nat.

(** The number written by a non-empty run of decimal digits. *)
Definition digits_val (l : list ascii) : option Z :=
  Z.of_uint <$> NilZero.uint_of_string (string_of_list_ascii l).

(** C [isspace]: space, tab, newline, vertical tab, form feed, carriage return. *)
Definition is_space (a : ascii) : bool :=
  let n := nat_of_ascii a in ((n =? 32) || ((9 <=? n) && (n <=? 13)))%nat.

Fixpoint drop_space (l : list ascii) : list ascii :=
  match l with
  | a :: l' => if is_space a then drop_space l' else l
  | [] => []
  end.

Definition strip (l : list ascii) : list ascii :=
  rev (drop_space (rev (drop_space l))).

Definition split_sign (l : list ascii) : bool * list ascii :=
  match l with
  | "-"%char :: l' => (true, l')
  | "+"%char :: l' => (false, l')
  | _ => (false, l)
  end.

Definition signed (neg : bool) (z : Z) : Z := if neg then - z else z.

(** An integer literal: optional sign and at least one digit, surrounded by
    optional white space. *)
Definition parse_int (s : string) : option Z :=
  let '(neg, ds) := split_sign (strip (list_ascii_of_string s)) in
  signed neg <$> digits_val ds.

Fixpoint span_digits (l : list ascii) : list ascii * list ascii :=
  match l with
  | a :: l' =>
      if is_digit a then let '(ds, rest) := span_digits l' in (a :: ds, rest)
      else ([], l)
  | [] => ([], [])
  end.

Definition pow10 (z : Z) : Q :=
  if 0 <=? z then inject_Z (10 ^ z) else 1 / inject_Z (10 ^ (- z)).

(** A float literal: [sign] digits [. digits] [e [sign] digits], with at
    least one digit in the mantissa. *)
Definition parse_float (s : string) : option Q :=
  let '(neg, l) := split_sign (strip (list_ascii_of_string s)) in
  let '(ip, l1) := span_digits l in
  let '(fp, l2) :=
    match l1 with
    | "."%char :: l1' => span_digits l1'
    | _ => ([], l1)
    end in
  match digits_val (ip ++ fp) with
  | None => None
  | Some mant =>
      let m := inject_Z (signed neg mant) in
      let scale := - Z.of_nat (length fp) in
      match l2 with
      | [] => Some (Qred (m * pow10 scale))
      | e :: l3 =>
          if (Ascii.eqb e "e" || Ascii.eqb e "E")%bool then
            let '(eneg, ds) := split_sign l3 in
            match digits_val ds with
            | Some x => Some (Qred (m * pow10 (scale + signed eneg x)))
            | None => None
            end
          else None
      end
  end.

Definition parse_bool (s : string) : option bool :=
  if bool_decide (s ∈ ["True"; "TRUE"; "true"]) then Some true
  else if bool_decide (s ∈ ["False"; "FALSE"; "false"]) then Some false
  else None.

(** The texts [read_csv] takes for a missing value by default. *)
Definition na_values : list string :=
  [""; "#N/A"; "#N/A N/A"; "#NA"; "-1.#IND"; "-1.#QNAN"; "-NaN"; "-nan";
   "1.#IND"; "1.#QNAN"; "<NA>"; "N/A"; "NA"; "NULL"; "NaN"; "None"; "n/a";
   "nan"; "null"].

Definition is_na (s : string) : bool := bool_decide (s ∈ na_values).



Inductive token :=
| TNa
| TInt (z : Z)
| TNum (q : Q)
| TBool (b : bool)
| TOther.

Definition classify (c : cell) : token :=
  match c with
  | CFloat q => TNum q
  | CText s =>
      if is_na s then TNa
      else match parse_int s with
           | Some z => TInt z
           | None =>
               match parse_float s with
               | Some q => TNum q
               | None =>
                   match parse_bool s with
                   | Some b => TBool b
                   | None => TOther
                   end
               end
           end
  end.

(** ** [pd.read_csv] with its default arguments *)

(** Python's text for a float, needed only where [read_csv] keeps a float
    cell as text (a column that also holds words): the decimal expansion,
    at most 17 digits after the point; the exponent form Python uses for
    very large and very small numbers is left out. *)
Fixpoint frac_digits (fuel : nat) (r d : Z) : string :=
  match fuel with
  | O => ""
  | S fuel' =>
      if r =? 0 then ""
      else String (ascii_of_nat (48 + Z.to_nat (10 * r / d)))
                  (frac_digits fuel' (10 * r mod d) d)
  end.

Definition float_str (q : Q) : string :=
  let n := Z.abs (Qnum q) in
  let d := Zpos (Qden q) in
  (if Qnum q <? 0 then "-" else "") +:+ str_int (n / d) +:+ "." +:+
  match frac_digits 17 (n mod d) d with
  | "" => "0"
  | s => s
  end.

Definition cell_text (c : cell) : string :=
  match c with
  | CText s => s
  | CFloat q => float_str q
  end.

(** Column types: [int64], [float64], [bool] (with NaN for a missing entry,
    which pandas stores in an [object] column) and [object] (text). *)
Inductive dtype := Int64 | Float64 | BoolT | Object.

Definition is_TInt (t : token) : bool := match t with TInt _ => true | _ => false end.
Definition is_numeric (t : token) : bool :=
  match t with TInt _ | TNum _ | TNa => true | _ => false end.
Definition is_boolean (t : token) : bool :=
  match t with TBool _ | TNa => true | _ => false end.

(** The parser tries the types in this order on the whole column. *)
Definition infer_dtype (cs : list cell) : dtype :=
  let ts := map classify cs in
  match ts with
  | [] => Object
  | _ =>
      if forallb is_TInt ts then Int64
      else if forallb is_numeric ts then Float64
      else if forallb is_boolean ts then BoolT
      else Object
  end.

Definition cell_value (dt : dtype) (c : cell) : scalar :=
  match dt, classify c with
  | Int64, TInt z => SInt z
  | Float64, TInt z => SFloat (inject_Z z)
  | Float64, TNum q => SFloat q
  | BoolT, TBool b => SBool b
  | Object, TNa => SNaN
  | Object, _ => SStr (cell_text c)
  | _, _ => SNaN
  end.

(** A header cell without text is named after its position. *)
Definition col_name (i : nat) (c : cell) : string :=
  match cell_text c with
  | "" => "Unnamed: " +:+ str_int (Z.of_nat i)
  | s => s
  end.

Definition is_blank (l : list cell) : bool :=
  match l with [] => true | _ => false end.

(** A line shorter than the header is filled with missing cells. *)
Definition pad (w : nat) (r : list cell) : list cell :=
  r ++ replicate (w - length r) (CText "").

Definition column (j : nat) (rs : list (list cell)) : list cell :=
  map (fun r => nth j r (CText "")) rs.

Definition dtypes (w : nat) (rs : list (list cell)) : list dtype :=
  map (fun j => infer_dtype (column j rs)) (seq 0 w).

(** Blank lines are skipped; the first line left is the header; a later line
    with more cells than the header is a tokenizing error.  (For a FIRST
    data line longer than the header pandas builds an index instead; a file
    written by [save_to_csv] starts with a header and a line of the same
    dict, so that case is not reached.)  Header names are taken as they
    are: the keys of a dict are distinct, so no name is renamed. *)
Definition read_csv (f : csv) : result DataFrame :=
  match List.filter (fun l => negb (is_blank l)) f with
  | [] => Raise EmptyDataError
  | header :: data =>
      let w := length header in
      if existsb (fun r => (w <? length r)%nat) data then Raise ParserError
      else
        let data' := map (pad w) data in
        let dts := dtypes w data' in
        Ok (mkDataFrame (imap col_name header)
                        (map (fun r => zip_with cell_value dts r) data'))
  end.

(** ** The record store (source lines 20-32)

    The disk is a finite map from path to file content; [os.path.isfile] is
    a lookup. *)

Definition isfile (fs : gmap string csv) (path : string) : bool :=
  bool_decide (is_Some (fs !! path)).

Definition save_to_csv (data_dict : record) (csv_file : string)
    (fs : gmap string csv) : gmap string csv :=
  let df_new := frame_of_dict data_dict in
  if negb (isfile fs csv_file)
  then <[csv_file := to_csv_lines df_new true]> fs
  else <[csv_file := default [] (fs !! csv_file) ++ to_csv_lines df_new false]> fs.

Definition load_from_csv (csv_file : string) (fs : gmap string csv) : result DataFrame :=
  if isfile fs csv_file
  then read_csv (default [] (fs !! csv_file))
  else Ok empty_frame.

(** ** Series statistics (pandas, numpy) *)

(** [df[name]]: the column, or [KeyError]. *)
Fixpoint index_of (name : string) (cols : list string) : option nat :=
  match cols with
  | [] => None
  | c :: cols' => if String.eqb c name then Some O else S <$> index_of name cols'
  end.

Definition getitem (df : DataFrame) (name : string) : result (list scalar) :=
  match index_of name (columns df) with
  | Some j => Ok (map (fun r => nth j r SNaN) (rows df))
  | None => Raise (KeyError name)
  end.

(** The number held by a value of a numeric column; NaN is [None]; text is
    not a number. *)
Definition num_of (v : scalar) : result (option Q) :=
  match v with
  | SInt z => Ok (Some (inject_Z z))
  | SFloat q => Ok (Some q)
  | SBool b => Ok (Some (if b then 1%Q else 0%Q))
  | SNaN => Ok None
  | SStr _ => Raise TypeError
  end.

Fixpoint nums_of (l : list scalar) : result (list (option Q)) :=
  match l with
  | [] => Ok []
  | v :: l' => x ← num_of v; xs ← nums_of l'; Ok (x :: xs)
  end.

Definition is_num (o : option Q) : bool :=
  match o with Some _ => true | None => false end.

(** [dropna] *)
Definition present (l : list (option Q)) : list Q := omap id l.

Definition Qsum (l : list Q) : Q := fold_right Qplus 0%Q l.

(** Mean of the values present; NaN when there is none. *)
Definition mean_present (l : list (option Q)) : option Q :=
  match present l with
  | [] => None
  | xs => Some (Qred (Qsum xs / inject_Z (Z.of_nat (length xs))))
  end.

(** [series.mean()] *)
Definition mean (l : list scalar) : result (option Q) :=
  xs ← nums_of l; Ok (mean_present xs).

(** Python equality of scalars ([1 == 1.0 == True]; NaN equals nothing). *)
Definition scalar_eqb (a b : scalar) : bool :=
  match a, b with
  | SStr x, SStr y => String.eqb x y
  | SStr _, _ | _, SStr _ | SNaN, _ | _, SNaN => false
  | _, _ =>
      match num_of a, num_of b with
      | Ok (Some x), Ok (Some y) => Qeq_bool x y
      | _, _ => false
      end
  end.

(** Order of group keys.  A column read from a file holds numbers or text,
    not both; between the two the order here is arbitrary. *)
Definition scalar_leb (a b : scalar) : bool :=
  match a, b with
  | SStr x, SStr y => String.leb x y
  | SStr _, _ => false
  | _, SStr _ => true
  | _, _ =>
      match num_of a, num_of b with
      | Ok (Some x), Ok (Some y) => Qle_bool x y
      | _, _ => true
      end
  end.

Fixpoint insert_key (k : scalar) (l : list scalar) : list scalar :=
  match l with
  | [] => [k]
  | k' :: l' => if scalar_leb k k' then k :: l else k' :: insert_key k l'
  end.

Definition sort_keys (l : list scalar) : list scalar :=
  fold_right insert_key [] l.

Fixpoint unique_keys (l : list scalar) : list scalar :=
  match l with
  | [] => []
  | k :: l' => k :: List.filter (fun k' => negb (scalar_eqb k k')) (unique_keys l')
  end.

Definition notna (v : scalar) : bool :=
  match v with SNaN => false | _ => true end.

(** The values of the rows whose key is [k]. *)
Definition group_values (k : scalar) (ks : list scalar) (xs : list (option Q))
    : list (option Q) :=
  map snd (List.filter (fun kx => scalar_eqb k (fst kx)) (zip ks xs)).

(** [df.groupby(by)[col].mean()]: one entry per key present (rows whose key
    is missing are dropped), keys in sorted order, the mean over the values
    present in the group. *)
Definition groupby_mean (df : DataFrame) (by_ col : string)
    : result (list (scalar * option Q)) :=
  ks ← getitem df by_;
  vs ← getitem df col;
  xs ← nums_of vs;
  Ok (map (fun k => (k, mean_present (group_values k ks xs)))
          (sort_keys (unique_keys (List.filter notna ks)))).

Fixpoint lookup_key (k : scalar) (s : list (scalar * option Q)) : option (option Q) :=
  match s with
  | [] => None
  | (k', v) :: s' => if scalar_eqb k k' then Some v else lookup_key k s'
  end.

(** [series.reindex(labels)]: the entries in the order of [labels]; a label
    that is not a key gets NaN. *)
Definition reindex (s : list (scalar * option Q)) (labels : list string)
    : list (scalar * option Q) :=
  map (fun l => (SStr l, default None (lookup_key (SStr l) s))) labels.

(** Outcome of [np.polyfit(x, y, 1)]; [rank_warning] is numpy's
    [RankWarning], a warning and not an exception. *)
Record fit := mkFit { slope : Q; intercept : Q; rank_warning : bool }.

Definition all_equal (x0 : Q) (xs : list Q) : bool :=
  forallb (fun x => Qeq_bool x x0) xs.

(** Least squares through the points.  With two distinct abscissas the
    normal equations have the one solution
    [m = (n Sxy - Sx Sy) / (n Sxx - Sx^2)], [b = (Sy - m Sx) / n].
    When all abscissas are one value [x0] the system has rank 1: numpy
    warns and returns the solution of least norm of the column-scaled
    system, which is [m = mean(y) / (2 x0)], [b = mean(y) / 2]; for
    [x0 = 0] the scaling divides zero by zero and the solver raises.  NaN
    among the data makes the solver raise; an empty [x] is a [TypeError]. *)
Definition polyfit1 (x y : list scalar) : result fit :=
  xs ← nums_of x;
  ys ← nums_of y;
  match xs with
  | [] => Raise TypeError
  | _ =>
      if negb (length xs =? length ys)%nat then Raise TypeError
      else if negb (forallb is_num xs && forallb is_num ys) then Raise LinAlgError
      else
        let px := present xs in
        let py := present ys in
        let n := inject_Z (Z.of_nat (length px)) in
        let x0 := hd 0%Q px in
        if all_equal x0 px then
          if Qeq_bool x0 0 then Raise LinAlgError
          else
            let ybar := (Qsum py / n)%Q in
            Ok (mkFit (Qred (ybar / (2 * x0))) (Qred (ybar / 2)) true)
        else
          let sx := Qsum px in
          let sy := Qsum py in
          let sxx := Qsum (map (fun a => a * a)%Q px) in
          let sxy := Qsum (zip_with Qmult px py) in
          let m := ((n * sxy - sx * sy) / (n * sxx - sx * sx))%Q in
          Ok (mkFit (Qred m) (Qred ((sy - m * sx) / n)) false)
  end.

(** ** The page (source lines 35-248) *)

(** What a run shows.  Static text (titles, headers, the consent text) is
    left out.  A number shown with [{:.2f}] is kept as the number; NaN
    ([None]) is shown by Python as the text nan. *)
Inductive chart :=
| BoxPlot (data : list Q)
| BarChart (bars : list (scalar * option Q))
| ScatterFit (points : list (Q * Q)) (line : fit) (average : option Q * option Q).

Inductive output :=
| Info (msg : string)
| Warning (msg : string)
| Success (msg : string)
| SuccessTimed (duration : Q)
| ShowFrame (df : DataFrame)
| Pyplot (c : chart)
| WriteAvgTime (key : scalar) (seconds : option Q)
| WriteAvg (what : string) (v : option Q).

(** The buttons of the page.  A click re-runs the script, and in that run
    the clicked button alone returns [True]. *)
Inductive button :=
| SubmitConsent | SubmitDemographics | StartTimer | StopTimer | SaveTask | SubmitExit.

#[global] Instance button_eq_dec : EqDecision button.
Proof. solve_decision. Defined.

Inductive familiarity_t := NotFamiliar | SomewhatFamiliar | VeryFamiliar.
Inductive task_t := AuthorizeApp | ViewFilterResults | ExportData.
Inductive success_t := Yes | No | Partial.

Definition familiarity_name (f : familiarity_t) : string :=
  match f with
  | NotFamiliar => "Not Familiar"
  | SomewhatFamiliar => "Somewhat Familiar"
  | VeryFamiliar => "Very Familiar"
  end.

Definition task_name (t : task_t) : string :=
  match t with
  | AuthorizeApp => "Authorize App"
  | ViewFilterResults => "View & Filter Results"
  | ExportData => "Export Data"
  end.

Definition success_name (s : success_t) : string :=
  match s with Yes => "Yes" | No => "No" | Partial => "Partial" end.

(** The widget values and the clock of one run. *)
Record inputs := mkInputs {
  clicked : option button;
  time_time : Q;                (* time.time() *)
  time_strftime : string;       (* time.strftime("%Y-%m-%d %H:%M:%S") *)
  consent_given : bool;
  name : string;
  country : string;
  age : Z;
  occupation : string;
  familiarity : familiarity_t;
  name2 : string;
  selected_task : task_t;
  success : success_t;
  confidence : Z;
  notes : string;
  satisfaction : Q;
  difficulty : Q;
  open_feedback : string
}.

Definition st_button (i : inputs) (b : button) : bool :=
  bool_decide (clicked i = Some b).

(** What lasts between runs: the files and [st.session_state]. *)
Record state := mkState {
  files : gmap string csv;
  session_state : gmap string Q
}.

Definition DATA_FOLDER : string := "data".
Definition CONSENT_CSV : string := DATA_FOLDER +:+ "/consent_data.csv".
Definition DEMOGRAPHIC_CSV : string := DATA_FOLDER +:+ "/demographic_data.csv".
Definition TASK_CSV : string := DATA_FOLDER +:+ "/task_data.csv".
Definition EXIT_CSV : string := DATA_FOLDER +:+ "/exit_data.csv".

(** *** The forms

    The dict each form saves (lines 72-75, 91-98, 133-141, 159-164). *)

Definition consent_dict (i : inputs) : record :=
  [("timestamp", SStr (time_strftime i));
   ("consent_given", SBool (consent_given i))].

Definition demographic_dict (i : inputs) : record :=
  [("timestamp", SStr (time_strftime i));
   ("name", SStr (name i));
   ("country", SStr (country i));
   ("age", SInt (age i));
   ("occupation", SStr (occupation i));
   ("familiarity", SStr (familiarity_name (familiarity i)))].

(** [duration_val if duration_val else ""]: a float is false when it is zero. *)
Definition duration_field (duration_val : option Q) : scalar :=
  match duration_val with
  | Some d => if Qeq_bool d 0 then SStr "" else SFloat d
  | None => SStr ""
  end.

Definition task_dict (i : inputs) (duration_val : option Q) : record :=
  [("timestamp", SStr (time_strftime i));
   ("user", SStr (name2 i));
   ("task_name", SStr (task_name (selected_task i)));
   ("success", SStr (success_name (success i)));
   ("duration_seconds", duration_field duration_val);
   ("confidence_rating", SInt (confidence i));
   ("notes", SStr (notes i))].

Definition exit_dict (i : inputs) : record :=
  [("timestamp", SStr (time_strftime i));
   ("satisfaction", SFloat (satisfaction i));
   ("difficulty", SFloat (difficulty i));
   ("open_feedback", SStr (open_feedback i))].

Definition consent_tab (i : inputs) (σ : state) : state * list output :=
  if st_button i SubmitConsent then
    if negb (consent_given i) then
      (σ, [Warning "You must agree to the consent terms before proceeding."])
    else
      let data_dict := consent_dict i in
      (mkState (save_to_csv data_dict CONSENT_CSV (files σ)) (session_state σ),
       [Success "Your consent has been recorded. Thank you!"])
  else (σ, []).

Definition demographics_tab (i : inputs) (σ : state) : state * list output :=
  if st_button i SubmitDemographics then
    let data_dict := demographic_dict i in
    (mkState (save_to_csv data_dict DEMOGRAPHIC_CSV (files σ)) (session_state σ),
     [Success "Demographic data saved."])
  else (σ, []).

(** Lines 116-118. *)
Definition start_timer (i : inputs) (σ : state) : state * list output :=
  if st_button i StartTimer then
    (mkState (files σ) (<["start_time" := time_time i]> (session_state σ)),
     [Info "Task timer started. Complete your task and then click 'Stop Task Timer'."])
  else (σ, []).

(** Lines 120-124. *)
Definition stop_timer (i : inputs) (σ : state) : state * list output :=
  if st_button i StopTimer then
    match session_state σ !! "start_time" with
    | Some start =>
        let duration := (time_time i - start)%Q in
        (mkState (files σ)
           (delete "start_time" (<["task_duration" := duration]> (session_state σ))),
         [SuccessTimed duration])
    | None => (σ, [])
    end
  else (σ, []).

(** Lines 130-147. *)
Definition save_task (i : inputs) (σ : state) : state * list output :=
  if st_button i SaveTask then
    let duration_val := session_state σ !! "task_duration" in
    let data_dict := task_dict i duration_val in
    (mkState (save_to_csv data_dict TASK_CSV (files σ))
       (fold_left (fun ss key => delete key ss) ["start_time"; "task_duration"]
          (session_state σ)),
     [Success "Task data saved."])
  else (σ, []).

Definition exit_tab (i : inputs) (σ : state) : state * list output :=
  if st_button i SubmitExit then
    let data_dict := exit_dict i in
    (mkState (save_to_csv data_dict EXIT_CSV (files σ)) (session_state σ),
     [Success "Exit questionnaire data saved."])
  else (σ, []).

(** One form after the other, on the state the previous one left. *)
Definition and_then (f g : state -> state * list output) (σ : state)
    : state * list output :=
  let '(σ1, o1) := f σ in
  let '(σ2, o2) := g σ1 in
  (σ2, o1 ++ o2).

Definition tasks_tab (i : inputs) : state -> state * list output :=
  and_then (start_timer i) (and_then (stop_timer i) (save_task i)).

Definition forms (i : inputs) : state -> state * list output :=
  and_then (consent_tab i)
    (and_then (demographics_tab i) (and_then (tasks_tab i) (exit_tab i))).

(** *** The report

    A report part shows things and may stop on an exception; what it showed
    before stays on the page. *)
Definition shown (A : Type) : Type := (list output * result A)%type.

Definition show (o : output) : shown unit := ([o], Ok tt).
Definition try {A} (r : result A) : shown A := ([], r).

Definition next {A B} (m : shown A) (k : A -> shown B) : shown B :=
  match m with
  | (o, Ok a) => let '(o', r) := k a in (o ++ o', r)
  | (o, Raise e) => (o, Raise e)
  end.

Notation "'do' x <~ m 'in' k" := (next m (fun x => k))
  (at level 10, x name, m at level 100, k at level 200, only parsing).
Notation "m >>> k" := (next m (fun _ => k))
  (at level 65, right associativity, only parsing).

Fixpoint show_all {A} (f : A -> output) (l : list A) : shown unit :=
  match l with
  | [] => ([], Ok tt)
  | a :: l' => show (f a) >>> show_all f l'
  end.

Definition report_plain (path msg : string) (fs : gmap string csv) : shown unit :=
  do df <~ try (load_from_csv path fs) in
  if negb (empty df) then show (ShowFrame df) else show (Info msg).

(** pandas has no bar chart of an empty series: the plot call raises. *)
Definition bar_plot (s : list (scalar * option Q)) : shown unit :=
  match s with
  | [] => try (Raise IndexError)
  | _ => show (Pyplot (BarChart s))
  end.

(** Lines 185-220. *)
Definition report_task (fs : gmap string csv) : shown unit :=
  do task_df <~ try (load_from_csv TASK_CSV fs) in
  if negb (empty task_df) then
    show (ShowFrame task_df) >>>
    do avg_duration <~ try (groupby_mean task_df "success" "duration_seconds") in
    do avg_duration_by_task <~ try (groupby_mean task_df "task_name" "duration_seconds") in
    let avg_duration := reindex avg_duration ["Yes"; "Partial"; "No"] in
    do durations <~ try (d ← getitem task_df "duration_seconds"; nums_of d) in
    show (Pyplot (BoxPlot (present durations))) >>>
    bar_plot avg_duration_by_task >>>
    show_all (fun kv => WriteAvgTime (fst kv) (snd kv)) avg_duration_by_task >>>
    bar_plot avg_duration >>>
    show_all (fun kv => WriteAvgTime (fst kv) (snd kv)) avg_duration
  else show (Info "No task data available yet.").

(** Lines 222-248. *)
Definition report_exit (fs : gmap string csv) : shown unit :=
  do exit_df <~ try (load_from_csv EXIT_CSV fs) in
  if negb (empty exit_df) then
    show (ShowFrame exit_df) >>>
    do avg_satisfaction <~ try (s ← getitem exit_df "satisfaction"; mean s) in
    do avg_difficulty <~ try (d ← getitem exit_df "difficulty"; mean d) in
    do xs <~ try (getitem exit_df "difficulty") in
    do ys <~ try (getitem exit_df "satisfaction") in
    do line <~ try (polyfit1 xs ys) in
    do px <~ try (nums_of xs) in
    do py <~ try (nums_of ys) in
    show (Pyplot (ScatterFit (zip (present px) (present py)) line
                    (avg_difficulty, avg_satisfaction))) >>>
    show (WriteAvg "Average Satisfaction" avg_satisfaction) >>>
    show (WriteAvg "Average Difficulty" avg_difficulty)
  else show (Info "No exit questionnaire data available yet.").

Definition report (fs : gmap string csv) : shown unit :=
  report_plain CONSENT_CSV "No consent data available yet." fs >>>
  report_plain DEMOGRAPHIC_CSV "No demographic data available yet." fs >>>
  report_task fs >>>
  report_exit fs.

(** One run of the script: the forms, then the report on the files the
    forms left.  The result is the state for the next run, what the page
    shows and the exception that ended the run, if any. *)
Definition main (i : inputs) (σ : state) : state * list output * option exn :=
  let '(σ', o) := forms i σ in
  let '(o', r) := report (files σ') in
  (σ', o ++ o', match r with Ok _ => None | Raise e => Some e end).

Definition next_state (i : inputs) (σ : state) : state := fst (fst (main i σ)).
Definition page (i : inputs) (σ : state) : list output := snd (fst (main i σ)).

(** A new session on a machine without data. *)
Definition initial : state := mkState ∅ ∅.

(** The state after a sequence of runs. *)
Definition run_all (runs : list inputs) (σ : state) : state :=
  fold_left (fun σ i => next_state i σ) runs σ.

(** * Predicates and examples of the properties *)

(** ** Text and values that survive a round trip *)

Definition digit_chars (s : string) : Prop :=
  Forall (fun a => is_digit a = true) (list_ascii_of_string s).






(** ** Sequences of appends *)


Definition line_of (r : record) : list cell := map to_cell (values r).





(** The tokens that make a column of type [dt] when the column holds
    nothing else. *)
Definition class_of (dt : dtype) (t : token) : bool :=
  match dt, t with
  | Int64, TInt _ | Float64, TNum _ | BoolT, TBool _ | Object, TOther => true
  | _, _ => false
  end.


(** ** The session timer *)

Definition last_line (path : string) (σ : state) : option (list cell) :=
  f ← files σ !! path; last f.

(** The cell of [duration_seconds], the fifth field of a task line. *)
Definition duration_cell (line : list cell) : cell := nth 4 line (CText "").


(** ** Sample runs *)

(** Sample widget values, and a run with a given click and clock. *)
Definition sample_inputs : inputs :=
  mkInputs None 0 "2024-05-01 10:00:00" false "Ana" "Peru" 31 "nurse"
    VeryFamiliar "Ana" ExportData Yes 4 "found the button" 4 2 "fine".

Definition click (b : button) (t : Q) (i : inputs) : inputs :=
  mkInputs (Some b) t (time_strftime i) (consent_given i) (name i) (country i)
    (age i) (occupation i) (familiarity i) (name2 i) (selected_task i)
    (success i) (confidence i) (notes i) (satisfaction i) (difficulty i)
    (open_feedback i).

(** ** Grouped means and the fit *)

(** The value of column [col] in row [r]. *)
Definition field (df : DataFrame) (col : string) (r : list scalar) : scalar :=
  match index_of col (columns df) with
  | Some j => nth j r SNaN
  | None => SNaN
  end.

(** In the words of the claim: the durations that are present among the
    rows of group [k], and their mean. *)
Definition present_in_group (df : DataFrame) (by_ col : string) (k : scalar) : list Q :=
  omap (fun r =>
          if scalar_eqb k (field df by_ r)
          then match num_of (field df col r) with
               | Ok (Some q) => Some q
               | _ => None
               end
          else None) (rows df).

Definition mean_of (qs : list Q) : option Q :=
  match qs with
  | [] => None
  | _ => Some (Qred (Qsum qs / inject_Z (Z.of_nat (length qs))))
  end.

(** The rows of the claim's example. *)
Definition example_task_rows : DataFrame :=
  mkDataFrame ["success"; "duration_seconds"]
    [[SStr "Yes"; SFloat 10]; [SStr "Yes"; SFloat 20]; [SStr "No"; SFloat 5]].

(** The same with one more "Yes" row whose duration is missing. *)
Definition example_task_rows_missing : DataFrame :=
  mkDataFrame ["success"; "duration_seconds"]
    [[SStr "Yes"; SFloat 10]; [SStr "Yes"; SNaN]; [SStr "Yes"; SFloat 20];
     [SStr "No"; SFloat 5]].

(** A run that submits the exit questionnaire with the given answers. *)
Definition submit_exit (sat dif : Q) (i : inputs) : inputs :=
  mkInputs (Some SubmitExit) (time_time i) (time_strftime i) (consent_given i)
    (name i) (country i) (age i) (occupation i) (familiarity i) (name2 i)
    (selected_task i) (success i) (confidence i) (notes i) sat dif
    (open_feedback i).





Definition status_labels : list string := ["Yes"; "Partial"; "No"].

(** The entry of a status: the mean of the durations present in its rows. *)
Definition status_entry (task_df : DataFrame) (label : string) : scalar * option Q :=
  (SStr label,
   mean_of (present_in_group task_df "success" "duration_seconds" (SStr label))).

(** What C4 says of the statuses without data: nothing is written for them. *)
Definition absent_without_data (fs : gmap string csv) : Prop :=
  forall (df : DataFrame) (label : string) (v : option Q),
    load_from_csv TASK_CSV fs = Ok df ->
    present_in_group df "success" "duration_seconds" (SStr label) = [] ->
    ~ In (WriteAvgTime (SStr label) v) (fst (report_task fs)).

(** One timed task, completed with success "Yes". *)
Definition one_timed_task : list inputs :=
  [click StartTimer 100 sample_inputs;
   click StopTimer (225 # 2) sample_inputs;
   click SaveTask 130 sample_inputs].

(** The Task table after [one_timed_task], as loaded. *)
Definition one_timed_task_frame : DataFrame :=
  mkDataFrame
    ["timestamp"; "user"; "task_name"; "success"; "duration_seconds";
     "confidence_rating"; "notes"]
    [[SStr "2024-05-01 10:00:00"; SStr "Ana"; SStr "Export Data"; SStr "Yes";
      SFloat (25 # 2); SInt 4; SStr "found the button"]].

(** ** Files written by the forms *)

Definition float_cell (c : cell) : Prop := exists q, c = CFloat q.

(** A duration as the Task form writes it: a float or the empty text. *)
Definition duration_like (c : cell) : Prop := c = CText "" \/ float_cell c.

Definition text_cell (c : cell) : Prop := classify c = TOther.


Definition task_columns : list string :=
  ["timestamp"; "user"; "task_name"; "success"; "duration_seconds";
   "confidence_rating"; "notes"].

Definition exit_columns : list string :=
  ["timestamp"; "satisfaction"; "difficulty"; "open_feedback"].

Definition task_line (l : list cell) : Prop :=
  exists a b t s d c n,
    l = [a; b; CText (task_name t); CText (success_name s); d; c; n] /\
    duration_like d.




(** The answers a slider from 1.0 to 5.0 can give. *)
Definition in_slider_range (i : inputs) : Prop :=
  (1 <= satisfaction i <= 5)%Q /\ (1 <= difficulty i <= 5)%Q.


(** * Further predicates: runs as a trace of submissions *)

(** The record a run saves and the file it saves it to, if any: a run
    reaches one [save_to_csv] call at most (lines 76, 99, 142, 165). *)
Definition written (i : inputs) (σ : state) : option (string * record) :=
  match clicked i with
  | Some SubmitConsent =>
      if consent_given i then Some (CONSENT_CSV, consent_dict i) else None
  | Some SubmitDemographics => Some (DEMOGRAPHIC_CSV, demographic_dict i)
  | Some SaveTask =>
      Some (TASK_CSV, task_dict i (session_state σ !! "task_duration"))
  | Some SubmitExit => Some (EXIT_CSV, exit_dict i)
  | Some StartTimer | Some StopTimer | None => None
  end.

(** The runs of a trace that submit a form which accepts the submission. *)
Definition consents (runs : list inputs) : list inputs :=
  List.filter (fun i => st_button i SubmitConsent && consent_given i) runs.

Definition demographics (runs : list inputs) : list inputs :=
  List.filter (fun i => st_button i SubmitDemographics) runs.

Definition saves (runs : list inputs) : list inputs :=
  List.filter (fun i => st_button i SaveTask) runs.

Definition exits (runs : list inputs) : list inputs :=
  List.filter (fun i => st_button i SubmitExit) runs.

(** The file of a table with the given lines; no file without lines. *)
Definition table_file (cols : list string) (lines : list (list cell)) : option csv :=
  match lines with
  | [] => None
  | _ => Some (map CText cols :: lines)
  end.

(** A file after more lines were appended; the first append to an absent
    file writes the header. *)
Definition grown (cols : list string) (old : option csv) (lines : list (list cell))
    : option csv :=
  match old with
  | Some f => Some (f ++ lines)
  | None => table_file cols lines
  end.

(** The lines a trace appends to the file of one form, from state [σ] on;
    [dict] is the record of a submitting run. *)
Fixpoint lines_written (sel : inputs -> bool) (dict : inputs -> state -> record)
    (runs : list inputs) (σ : state) : list (list cell) :=
  match runs with
  | [] => []
  | i :: runs' =>
      (if sel i then [line_of (dict i σ)] else []) ++
      lines_written sel dict runs' (next_state i σ)
  end.

Definition consent_columns : list string := ["timestamp"; "consent_given"].

Definition demographic_columns : list string :=
  ["timestamp"; "name"; "country"; "age"; "occupation"; "familiarity"].

(** ** Sums over the points of a fit *)




(** ** Runs outside the task tab *)

(** A run in which none of the three buttons of the task tab is clicked. *)
Definition outside_tasks (i : inputs) : bool :=
  match clicked i with
  | Some StartTimer | Some StopTimer | Some SaveTask => false
  | _ => true
  end.

(** ** The tasks of a trace *)

(** The key under which a saved task result is grouped (line 190). *)
Definition saved_task (i : inputs) : scalar := SStr (task_name (selected_task i)).

(** The duration that the session holds at each save of a trace, in the
    order of the saves. *)
Fixpoint held_durations (runs : list inputs) (σ : state) : list (option Q) :=
  match runs with
  | [] => []
  | i :: runs' =>
      (if st_button i SaveTask then [session_state σ !! "task_duration"] else [])
      ++ held_durations runs' (next_state i σ)
  end.

(** The number that a held duration leaves in the Task table: none for a
    save without a duration and for a duration of zero (line 138). *)
Definition timed (d : option Q) : option Q :=
  match duration_field d with
  | SFloat q => Some q
  | _ => None
  end.

(** ** More sample runs *)

(** A run that submits the consent form with the box checked. *)
Definition agree (t : Q) (i : inputs) : inputs :=
  mkInputs (Some SubmitConsent) t (time_strftime i) true (name i) (country i)
    (age i) (occupation i) (familiarity i) (name2 i) (selected_task i)
    (success i) (confidence i) (notes i) (satisfaction i) (difficulty i)
    (open_feedback i).

(** * Properties *)

(** ** Text of integers is read back as the integer *)

Lemma digit_chars_uint (d : Decimal.uint) :
  digit_chars (NilEmpty.string_of_uint d).
Proof.
  unfold digit_chars.
  induction d; simpl; constructor; solve [reflexivity | assumption].
Qed.

Lemma digit_chars_uint0 (d : Decimal.uint) :
  digit_chars (NilZero.string_of_uint d).
Proof.
  destruct d; try apply (digit_chars_uint (_ _)).
  repeat constructor.
Qed.

Lemma digit_not_space (a : ascii) : is_digit a = true -> is_space a = false.
Proof.
  unfold is_digit, is_space. intros H.
  apply andb_true_iff in H as [H1 H2].
  apply Nat.leb_le in H1. apply Nat.leb_le in H2.
  apply orb_false_iff. split.
  - apply Nat.eqb_neq. lia.
  - apply andb_false_iff. right. apply Nat.leb_gt. lia.
Qed.

Lemma drop_space_id (l : list ascii) :
  match l with a :: _ => is_space a = false | [] => True end ->
  drop_space l = l.
Proof. destruct l as [|a l]; simpl; [reflexivity|]. now intros ->. Qed.

(** White space is only dropped at the two ends. *)
Lemma strip_id (l : list ascii) :
  match l with a :: _ => is_space a = false | [] => True end ->
  match rev l with a :: _ => is_space a = false | [] => True end ->
  strip l = l.
Proof.
  intros H1 H2. unfold strip.
  rewrite (drop_space_id l H1), (drop_space_id (rev l) H2).
  apply rev_involutive.
Qed.

Lemma Forall_hd {A} (P : A -> Prop) (l : list A) :
  Forall P l -> match l with a :: _ => P a | [] => True end.
Proof. now destruct 1. Qed.

Lemma strip_digits (l : list ascii) :
  Forall (fun a => is_digit a = true) l -> strip l = l.
Proof.
  intros H.
  assert (Hs : Forall (fun a => is_space a = false) l).
  { eapply Forall_impl; [exact H|]. apply digit_not_space. }
  apply strip_id.
  - apply (Forall_hd _ _ Hs).
  - apply (Forall_hd (fun a => is_space a = false)).
    apply Forall_rev. exact Hs.
Qed.

Lemma strip_minus_digits (l : list ascii) :
  l <> [] -> Forall (fun a => is_digit a = true) l ->
  strip ("-"%char :: l) = "-"%char :: l.
Proof.
  intros Hne H.
  assert (Hs : Forall (fun a => is_space a = false) l).
  { eapply Forall_impl; [exact H|]. apply digit_not_space. }
  apply strip_id; [reflexivity|].
  simpl. pose proof (Forall_hd _ _ (Forall_rev Hs)) as Hr.
  destruct (rev l) as [|a r] eqn:E.
  - apply (f_equal (@rev ascii)) in E. rewrite rev_involutive in E. now subst.
  - exact Hr.
Qed.

Lemma split_sign_digit (l : list ascii) :
  Forall (fun a => is_digit a = true) l -> split_sign l = (false, l).
Proof.
  destruct 1 as [|a l Ha _]; [reflexivity|].
  unfold split_sign.
  destruct (ascii_dec a "-") as [->|]; [discriminate Ha|].
  destruct (ascii_dec a "+") as [->|]; [discriminate Ha|].
  destruct a as [[|] [|] [|] [|] [|] [|] [|] [|]]; congruence.
Qed.

Lemma digits_val_uint (d : Decimal.uint) :
  digits_val (list_ascii_of_string (NilZero.string_of_uint d)) = Some (Z.of_uint d).
Proof.
  unfold digits_val. rewrite string_of_list_ascii_of_string.
  destruct d; try reflexivity; now rewrite NilZero.usu.
Qed.

Lemma string_of_uint0_nonempty (d : Decimal.uint) :
  list_ascii_of_string (NilZero.string_of_uint d) <> [].
Proof. destruct d; discriminate. Qed.

Lemma parse_int_str_int (z : Z) : parse_int (str_int z) = Some z.
Proof.
  unfold parse_int, str_int.
  rewrite <- (DecimalZ.of_to z) at 2.
  destruct (Z.to_int z) as [d|d]; simpl NilZero.string_of_int.
  - rewrite strip_digits by apply digit_chars_uint0.
    rewrite split_sign_digit by apply digit_chars_uint0.
    now rewrite digits_val_uint.
  - change (list_ascii_of_string (String "-" (NilZero.string_of_uint d)))
      with ("-"%char :: list_ascii_of_string (NilZero.string_of_uint d)).
    rewrite strip_minus_digits
      by (apply string_of_uint0_nonempty || apply digit_chars_uint0).
    simpl split_sign. cbv beta iota. now rewrite digits_val_uint.
Qed.

Lemma is_na_str_int (z : Z) : is_na (str_int z) = false.
Proof.
  unfold is_na. apply bool_decide_eq_false. intros Hin.
  pose proof (parse_int_str_int z) as Hp.
  unfold na_values in Hin.
  repeat (apply elem_of_cons in Hin as [Hin|Hin];
          [rewrite Hin in Hp; discriminate Hp|]).
  inversion Hin.
Qed.

Lemma classify_int (z : Z) : classify (CText (str_int z)) = TInt z.
Proof. unfold classify. now rewrite is_na_str_int, parse_int_str_int. Qed.

(** ** Values that [read_csv] gives back as they were written *)



(** ** Reading a file whose lines have the width of the header *)

Lemma filter_not_blank (data : list (list cell)) :
  Forall (fun r => r <> []) data ->
  List.filter (fun l => negb (is_blank l)) data = data.
Proof.
  induction 1 as [|r data Hr _ IH]; simpl; [reflexivity|].
  destruct r; [congruence|]. simpl. now rewrite IH.
Qed.

Lemma pad_full (w : nat) (r : list cell) : length r = w -> pad w r = r.
Proof.
  intros <-. unfold pad. rewrite Nat.sub_diag. simpl. apply app_nil_r.
Qed.

Lemma map_pad_full (w : nat) (data : list (list cell)) :
  Forall (fun r => length r = w) data -> map (pad w) data = data.
Proof.
  induction 1 as [|r data Hr _ IH]; simpl; [reflexivity|].
  now rewrite pad_full, IH.
Qed.

Lemma no_long_line (w : nat) (data : list (list cell)) :
  Forall (fun r => length r = w) data ->
  existsb (fun r => (w <? length r)%nat) data = false.
Proof.
  induction 1 as [|r data Hr _ IH]; simpl; [reflexivity|].
  rewrite IH, Hr, Nat.ltb_irrefl. reflexivity.
Qed.

Lemma read_csv_shaped (header : list cell) (data : list (list cell)) :
  header <> [] ->
  Forall (fun r => length r = length header) data ->
  read_csv (header :: data) =
  Ok (mkDataFrame (imap col_name header)
        (map (fun r => zip_with cell_value (dtypes (length header) data) r) data)).
Proof.
  intros Hh Hd. unfold read_csv.
  assert (Hnb : Forall (fun r : list cell => r <> []) (header :: data)).
  { constructor; [exact Hh|].
    eapply Forall_impl; [exact Hd|]. intros r Hr ->.
    destruct header; [congruence|discriminate]. }
  rewrite (filter_not_blank _ Hnb).
  rewrite (no_long_line _ _ Hd), (map_pad_full _ _ Hd). reflexivity.
Qed.

Lemma imap_text_names (f : nat -> cell -> string) (ks : list string) :
  (forall i k, k <> "" -> f i (CText k) = k) ->
  Forall (fun k => k <> "") ks -> imap f (map CText ks) = ks.
Proof.
  revert f. induction ks as [|k ks IH]; intros f Hf Hks; [reflexivity|].
  inversion Hks; subst. simpl. rewrite Hf by assumption. f_equal.
  apply IH; [|assumption]. intros i k' Hk'. now apply Hf.
Qed.

Lemma col_names_text (ks : list string) :
  Forall (fun k => k <> "") ks -> imap col_name (map CText ks) = ks.
Proof.
  apply imap_text_names. intros i k Hk. unfold col_name. simpl.
  destruct k; congruence.
Qed.



Lemma length_dtypes (w : nat) (data : list (list cell)) :
  length (dtypes w data) = w.
Proof. unfold dtypes. now rewrite length_map, length_seq. Qed.

Lemma nth_dtypes (w j : nat) (data : list (list cell)) :
  (j < w)%nat -> nth j (dtypes w data) Object = infer_dtype (column j data).
Proof.
  intros H. unfold dtypes.
  rewrite (nth_indep _ Object (infer_dtype (column 0 data)))
    by now rewrite length_map, length_seq.
  rewrite (map_nth (fun j => infer_dtype (column j data)) (seq 0 w) 0%nat j).
  now rewrite seq_nth.
Qed.

(** ** The record store *)

Lemma isfile_None (fs : gmap string csv) (path : string) :
  fs !! path = None -> isfile fs path = false.
Proof.
  intros H. unfold isfile. apply bool_decide_eq_false. rewrite H.
  intros [x Hx]. discriminate.
Qed.

Lemma isfile_Some (fs : gmap string csv) (path : string) (f : csv) :
  fs !! path = Some f -> isfile fs path = true.
Proof.
  intros H. unfold isfile. apply bool_decide_eq_true. rewrite H. eauto.
Qed.

Lemma save_to_csv_new (R : record) (path : string) (fs : gmap string csv) :
  fs !! path = None ->
  save_to_csv R path fs =
  <[path := [map CText (keys R); map to_cell (values R)]]> fs.
Proof.
  intros H. unfold save_to_csv. now rewrite (isfile_None _ _ H).
Qed.

Lemma save_to_csv_old (R : record) (path : string) (fs : gmap string csv) (f : csv) :
  fs !! path = Some f ->
  save_to_csv R path fs = <[path := f ++ [map to_cell (values R)]]> fs.
Proof.
  intros H. unfold save_to_csv. now rewrite (isfile_Some _ _ _ H), H.
Qed.

Lemma load_from_csv_Some (path : string) (fs : gmap string csv) (f : csv) :
  fs !! path = Some f -> load_from_csv path fs = read_csv f.
Proof.
  intros H. unfold load_from_csv. now rewrite (isfile_Some _ _ _ H), H.
Qed.

Lemma load_from_csv_None (path : string) (fs : gmap string csv) :
  fs !! path = None -> load_from_csv path fs = Ok empty_frame.
Proof.
  intros H. unfold load_from_csv. now rewrite (isfile_None _ _ H).
Qed.


(** C3. Loading a table whose file is absent gives the empty frame, which
    has no row, and raises nothing. *)
Theorem load_absent_empty (csv_file : string) (fs : gmap string csv) :
  fs !! csv_file = None ->
  load_from_csv csv_file fs = Ok empty_frame /\
  rows empty_frame = [] /\
  raises (load_from_csv csv_file fs) = false.
Proof.
  intros H. rewrite (load_from_csv_None _ _ H). repeat split.
Qed.

Lemma load_absent_empty_witness :
  (∅ : gmap string csv) !! CONSENT_CSV = None /\
  load_from_csv CONSENT_CSV ∅ = Ok empty_frame.
Proof.
  split; [reflexivity|].
  apply (load_absent_empty CONSENT_CSV ∅). reflexivity.
Defined.




(** ** A sequence of appends *)








Lemma forallb_classify (P : token -> bool) (cs : list cell) :
  Forall (fun c => P (classify c) = true) cs ->
  forallb P (map classify cs) = true.
Proof. induction 1 as [|c cs Hc _ IH]; [reflexivity|]. simpl. now rewrite Hc, IH. Qed.

(** A column that holds tokens of one class only gets the type of that
    class. *)
Lemma infer_dtype_class (dt : dtype) (cs : list cell) :
  cs <> [] ->
  Forall (fun c => class_of dt (classify c) = true) cs ->
  infer_dtype cs = dt.
Proof.
  intros Hne H. unfold infer_dtype.
  destruct cs as [|c cs]; [congruence|].
  inversion H as [|? ? Hc Hcs]; subst.
  cbn [map]. cbn [forallb].
  destruct dt.
  - rewrite (forallb_classify is_TInt) by
      (eapply Forall_impl; [exact Hcs|]; intros x; cbn beta; destruct (classify x); cbn; congruence).
    revert Hc. destruct (classify c); cbn; congruence.
  - rewrite (forallb_classify is_numeric) by
      (eapply Forall_impl; [exact Hcs|]; intros x; cbn beta; destruct (classify x); cbn; congruence).
    revert Hc. destruct (classify c); cbn; congruence.
  - rewrite (forallb_classify is_boolean) by
      (eapply Forall_impl; [exact Hcs|]; intros x; cbn beta; destruct (classify x); cbn; congruence).
    revert Hc. destruct (classify c); cbn; congruence.
  - revert Hc. destruct (classify c); cbn; congruence.
Qed.







(** ** One click per run *)

Lemma st_button_true (i : inputs) (b : button) :
  clicked i = Some b -> st_button i b = true.
Proof. intros H. unfold st_button. now apply bool_decide_eq_true. Qed.

(** The forms of a run do what the clicked button's branch does. *)
Lemma forms_clicked (i : inputs) (σ : state) :
  forms i σ =
  match clicked i with
  | Some SubmitConsent => consent_tab i σ
  | Some SubmitDemographics => demographics_tab i σ
  | Some StartTimer => start_timer i σ
  | Some StopTimer => stop_timer i σ
  | Some SaveTask => save_task i σ
  | Some SubmitExit => exit_tab i σ
  | None => (σ, [])
  end.
Proof.
  unfold forms, tasks_tab, and_then, consent_tab, demographics_tab,
    start_timer, stop_timer, save_task, exit_tab, st_button.
  destruct (clicked i) as [[]|];
    repeat match goal with
    | |- context [bool_decide ?P] =>
        first [ rewrite (bool_decide_eq_true_2 P) by reflexivity
              | rewrite (bool_decide_eq_false_2 P) by discriminate ]
    end;
    try destruct (consent_given i);
    try destruct (session_state σ !! "start_time");
    cbn [negb app]; rewrite ?app_nil_r; reflexivity.
Qed.

Lemma main_forms (i : inputs) (σ : state) :
  main i σ =
  (fst (forms i σ),
   snd (forms i σ) ++ fst (report (files (fst (forms i σ)))),
   match snd (report (files (fst (forms i σ)))) with
   | Ok _ => None
   | Raise e => Some e
   end).
Proof.
  unfold main. destruct (forms i σ) as [σ' o]. simpl.
  now destruct (report (files σ')).
Qed.

Lemma next_state_forms (i : inputs) (σ : state) :
  next_state i σ = fst (forms i σ).
Proof. unfold next_state. now rewrite main_forms. Qed.

Lemma page_forms (i : inputs) (σ : state) :
  page i σ = snd (forms i σ) ++ fst (report (files (fst (forms i σ)))).
Proof. unfold page. now rewrite main_forms. Qed.

(** ** Consent *)

(** C8. A run in which "Submit Consent" is clicked with the box unchecked
    shows the warning and leaves the state as it was: the files (so the
    consent table loads as before, with the same rows) and the session. *)
Theorem unchecked_consent_writes_nothing (i : inputs) (σ : state) :
  clicked i = Some SubmitConsent ->
  consent_given i = false ->
  next_state i σ = σ /\
  In (Warning "You must agree to the consent terms before proceeding.") (page i σ) /\
  load_from_csv CONSENT_CSV (files (next_state i σ)) =
    load_from_csv CONSENT_CSV (files σ).
Proof.
  intros Hc Hg.
  assert (Hf : forms i σ =
               (σ, [Warning "You must agree to the consent terms before proceeding."])).
  { rewrite forms_clicked, Hc. unfold consent_tab.
    now rewrite (st_button_true _ _ Hc), Hg. }
  rewrite next_state_forms, page_forms, Hf. simpl.
  repeat split. now left.
Qed.

(** ** The session timer *)

Lemma save_to_csv_last (R : record) (path : string) (fs : gmap string csv) :
  exists f, save_to_csv R path fs !! path = Some f /\ last f = Some (line_of R).
Proof.
  destruct (fs !! path) as [f|] eqn:E.
  - rewrite (save_to_csv_old _ _ _ _ E). eexists. split.
    + apply lookup_insert_eq.
    + apply last_snoc.
  - rewrite (save_to_csv_new _ _ _ E). eexists. split.
    + apply lookup_insert_eq.
    + reflexivity.
Qed.

Lemma start_timer_clicked (i : inputs) (σ : state) :
  clicked i = Some StartTimer ->
  next_state i σ =
  mkState (files σ) (<["start_time" := time_time i]> (session_state σ)).
Proof.
  intros H. rewrite next_state_forms, forms_clicked, H.
  unfold start_timer. now rewrite (st_button_true _ _ H).
Qed.

Lemma stop_timer_running (i : inputs) (σ : state) (start : Q) :
  clicked i = Some StopTimer ->
  session_state σ !! "start_time" = Some start ->
  next_state i σ =
  mkState (files σ)
    (delete "start_time"
       (<["task_duration" := (time_time i - start)%Q]> (session_state σ))).
Proof.
  intros H Hs. rewrite next_state_forms, forms_clicked, H.
  unfold stop_timer. now rewrite (st_button_true _ _ H), Hs.
Qed.

Lemma stop_timer_idle (i : inputs) (σ : state) :
  clicked i = Some StopTimer ->
  session_state σ !! "start_time" = None ->
  forms i σ = (σ, []).
Proof.
  intros H Hs. rewrite forms_clicked, H.
  unfold stop_timer. now rewrite (st_button_true _ _ H), Hs.
Qed.

Lemma save_task_clicked (i : inputs) (σ : state) :
  clicked i = Some SaveTask ->
  next_state i σ =
  mkState
    (save_to_csv (task_dict i (session_state σ !! "task_duration")) TASK_CSV (files σ))
    (delete "task_duration" (delete "start_time" (session_state σ))).
Proof.
  intros H. rewrite next_state_forms, forms_clicked, H.
  unfold save_task. now rewrite (st_button_true _ _ H).
Qed.

Lemma last_line_save_task (i : inputs) (σ : state) :
  clicked i = Some SaveTask ->
  last_line TASK_CSV (next_state i σ) =
  Some (line_of (task_dict i (session_state σ !! "task_duration"))).
Proof.
  intros H. rewrite (save_task_clicked _ _ H). unfold last_line. simpl files.
  destruct (save_to_csv_last (task_dict i (session_state σ !! "task_duration"))
              TASK_CSV (files σ)) as (f & Hf & Hl).
  rewrite Hf. exact Hl.
Qed.


Lemma Qeq_bool_false (x : Q) : ~ (x == 0)%Q -> Qeq_bool x 0 = false.
Proof.
  intros H. destruct (Qeq_bool x 0) eqn:E; [|reflexivity].
  apply Qeq_bool_eq in E. contradiction.
Qed.



(** C10. A task save writes the duration held by the session when it is
    not zero, and the empty text when the session holds none or holds zero:
    a zero duration gives the very line of a save without a timed run. *)
Theorem falsy_duration_saved_empty (i : inputs) (σ : state) :
  clicked i = Some SaveTask ->
  exists line,
    last_line TASK_CSV (next_state i σ) = Some line /\
    match session_state σ !! "task_duration" with
    | None => duration_cell line = CText ""
    | Some d =>
        ((d == 0)%Q -> duration_cell line = CText "" /\ line = line_of (task_dict i None)) /\
        (~ (d == 0)%Q -> duration_cell line = CFloat d)
    end.
Proof.
  intros H. eexists. split; [apply (last_line_save_task _ _ H)|].
  destruct (session_state σ !! "task_duration") as [d|]; [|reflexivity].
  unfold duration_cell, line_of, task_dict, values, duration_field. simpl.
  split; intros Hd.
  - apply Qeq_bool_iff in Hd. rewrite Hd. split; reflexivity.
  - now rewrite Qeq_bool_false.
Qed.

Lemma unchecked_consent_writes_nothing_witness :
  next_state (click SubmitConsent 0 sample_inputs) initial = initial.
Proof.
  apply (unchecked_consent_writes_nothing (click SubmitConsent 0 sample_inputs) initial);
    reflexivity.
Defined.


Lemma falsy_duration_saved_empty_witness :
  exists line,
    last_line TASK_CSV (next_state (click SaveTask 130 sample_inputs) initial) = Some line /\
    duration_cell line = CText "".
Proof.
  destruct (falsy_duration_saved_empty (click SaveTask 130 sample_inputs) initial)
    as (line & Hl & Hd).
  - reflexivity.
  - exists line. split; [exact Hl|exact Hd].
Defined.

(** ** Grouped means *)

Lemma getitem_field (df : DataFrame) (col : string) (l : list scalar) :
  getitem df col = Ok l -> l = map (field df col) (rows df).
Proof.
  unfold getitem, field. destruct (index_of col (columns df)); [|discriminate].
  now intros [= <-].
Qed.

Lemma nums_of_cons (v : scalar) (l : list scalar) (xs : list (option Q)) :
  nums_of (v :: l) = Ok xs ->
  exists x xs', num_of v = Ok x /\ nums_of l = Ok xs' /\ xs = x :: xs'.
Proof.
  simpl. destruct (num_of v) as [x|]; [|discriminate]. simpl.
  destruct (nums_of l) as [xs'|]; [|discriminate]. simpl.
  intros [= <-]. now exists x, xs'.
Qed.

Lemma group_values_rows (k : scalar) (f g : list scalar -> scalar)
    (rs : list (list scalar)) (xs : list (option Q)) :
  nums_of (map g rs) = Ok xs ->
  present (group_values k (map f rs) xs) =
  omap (fun r =>
          if scalar_eqb k (f r)
          then match num_of (g r) with Ok (Some q) => Some q | _ => None end
          else None) rs.
Proof.
  revert xs. induction rs as [|r rs IH]; intros xs H.
  - simpl in H. injection H as <-. reflexivity.
  - simpl map in H. apply nums_of_cons in H as (x & xs' & Hx & Hxs & ->).
    specialize (IH _ Hxs). unfold group_values, present in *. simpl.
    destruct (scalar_eqb k (f r)); simpl.
    + rewrite Hx. destruct x; simpl; [f_equal|]; exact IH.
    + exact IH.
Qed.

Lemma mean_present_mean_of (l : list (option Q)) :
  mean_present l = mean_of (present l).
Proof. unfold mean_present, mean_of. now destruct (present l). Qed.

(** C6. Every entry of a grouped mean is the mean of the durations present
    among the rows of its group: a missing duration is neither a term of
    the sum nor counted.  On the example rows the entries are No = 5 and
    Yes = 15, with no entry for Partial; a further "Yes" row without
    duration leaves Yes = 15. *)
Theorem grouped_mean_over_present (df : DataFrame) (by_ col : string)
    (s : list (scalar * option Q)) :
  groupby_mean df by_ col = Ok s ->
  (forall k v, In (k, v) s -> v = mean_of (present_in_group df by_ col k)) /\
  groupby_mean example_task_rows "success" "duration_seconds" =
    Ok [(SStr "No", Some 5%Q); (SStr "Yes", Some 15%Q)] /\
  groupby_mean example_task_rows_missing "success" "duration_seconds" =
    Ok [(SStr "No", Some 5%Q); (SStr "Yes", Some 15%Q)].
Proof.
  intros H. split; [|split; reflexivity].
  unfold groupby_mean in H.
  destruct (getitem df by_) as [ks|] eqn:Eks; [|discriminate]. simpl in H.
  destruct (getitem df col) as [vs|] eqn:Evs; [|discriminate]. simpl in H.
  destruct (nums_of vs) as [xs|] eqn:Exs; [|discriminate]. simpl in H.
  injection H as <-.
  apply getitem_field in Eks, Evs. subst ks vs.
  intros k v Hin. apply in_map_iff in Hin as (k' & [= <- <-] & _).
  rewrite mean_present_mean_of. f_equal.
  now apply group_values_rows.
Qed.

Lemma grouped_mean_over_present_witness :
  Some 15%Q =
  mean_of (present_in_group example_task_rows "success" "duration_seconds" (SStr "Yes")).
Proof.
  refine (proj1 (grouped_mean_over_present example_task_rows "success"
                   "duration_seconds"
                   [(SStr "No", Some 5%Q); (SStr "Yes", Some 15%Q)] _)
                (SStr "Yes") (Some 15%Q) _).
  - reflexivity.
  - right. left. reflexivity.
Defined.

(** ** The linear fit of the Exit report *)






(** ** Report parts: what is shown and whether the part raises *)

Lemma next_try_ok {A B} (a : A) (k : A -> shown B) :
  next (try (Ok a)) k = k a.
Proof. unfold next, try. now destruct (k a). Qed.

Lemma next_show {B} (o : output) (k : unit -> shown B) :
  next (show o) k = (o :: fst (k tt), snd (k tt)).
Proof. unfold next, show. now destruct (k tt). Qed.

Lemma next_ok {A B} (m : shown A) (k : A -> shown B) (a : A) :
  snd m = Ok a -> next m k = (fst m ++ fst (k a), snd (k a)).
Proof.
  destruct m as [o r]. simpl. intros ->. simpl. now destruct (k a).
Qed.

Lemma show_all_ok {A} (f : A -> output) (l : list A) :
  show_all f l = (map f l, Ok tt).
Proof.
  induction l as [|a l IH]; [reflexivity|].
  cbn [show_all]. now rewrite next_show, IH.
Qed.

(** ** Keys of a grouped mean *)

Lemma scalar_eqb_str (a : string) (k : scalar) :
  scalar_eqb (SStr a) k = true -> k = SStr a.
Proof.
  destruct k; simpl; try discriminate.
  intros H. apply String.eqb_eq in H. now subst.
Qed.

Lemma scalar_eqb_str_r (a : string) (k : scalar) :
  scalar_eqb k (SStr a) = true -> k = SStr a.
Proof.
  destruct k; simpl; try discriminate.
  intros H. apply String.eqb_eq in H. now subst.
Qed.

Lemma scalar_eqb_str_refl (a : string) : scalar_eqb (SStr a) (SStr a) = true.
Proof. simpl. apply String.eqb_refl. Qed.

Lemma In_insert_key (x k : scalar) (l : list scalar) :
  In x (insert_key k l) <-> x = k \/ In x l.
Proof.
  induction l as [|k' l IH]; simpl.
  - intuition.
  - destruct (scalar_leb k k'); simpl; rewrite ?IH; intuition.
Qed.

Lemma In_sort_keys (x : scalar) (l : list scalar) :
  In x (sort_keys l) <-> In x l.
Proof.
  induction l as [|k l IH]; simpl; [reflexivity|].
  rewrite In_insert_key, IH. intuition.
Qed.

Lemma In_unique_keys_sub (x : scalar) (l : list scalar) :
  In x (unique_keys l) -> In x l.
Proof.
  revert x. induction l as [|k l IH]; intros x; simpl; [easy|].
  intros [->|H]; [now left|]. right.
  apply filter_In in H as [H _]. now apply IH.
Qed.

Lemma In_unique_keys_str (a : string) (l : list scalar) :
  In (SStr a) l -> In (SStr a) (unique_keys l).
Proof.
  induction l as [|k l IH]; simpl; [easy|].
  intros [->|H]; [now left|].
  destruct (scalar_eqb k (SStr a)) eqn:E.
  - left. now apply scalar_eqb_str_r in E.
  - right. apply filter_In. split; [now apply IH|]. now rewrite E.
Qed.

Lemma In_str_dec (a : string) (l : list scalar) :
  In (SStr a) l \/ ~ In (SStr a) l.
Proof.
  destruct (existsb (scalar_eqb (SStr a)) l) eqn:E.
  - left. apply existsb_exists in E as (k & Hk & Ek).
    apply scalar_eqb_str in Ek. now subst.
  - right. intros H.
    assert (existsb (scalar_eqb (SStr a)) l = true); [|congruence].
    apply existsb_exists. exists (SStr a). split; [exact H|].
    apply scalar_eqb_str_refl.
Qed.

(** A text label is a key of the grouped mean exactly when some row has
    it as its key. *)
Lemma group_key_str (a : string) (ks : list scalar) :
  In (SStr a) (sort_keys (unique_keys (List.filter notna ks))) <-> In (SStr a) ks.
Proof.
  rewrite In_sort_keys. split.
  - intros H. apply In_unique_keys_sub in H. now apply filter_In in H as [H _].
  - intros H. apply In_unique_keys_str. now apply filter_In.
Qed.

Lemma lookup_key_str_in (a : string) (F : scalar -> option Q) (keys : list scalar) :
  In (SStr a) keys ->
  lookup_key (SStr a) (map (fun k => (k, F k)) keys) = Some (F (SStr a)).
Proof.
  induction keys as [|k keys IH]; cbn [map lookup_key In]; [easy|].
  intros H. destruct (scalar_eqb (SStr a) k) eqn:E.
  - apply scalar_eqb_str in E. now subst.
  - destruct H as [->|H]; [|now apply IH].
    now rewrite scalar_eqb_str_refl in E.
Qed.

Lemma lookup_key_str_out (a : string) (F : scalar -> option Q) (keys : list scalar) :
  ~ In (SStr a) keys ->
  lookup_key (SStr a) (map (fun k => (k, F k)) keys) = None.
Proof.
  induction keys as [|k keys IH]; cbn [map lookup_key In]; [easy|].
  intros H. destruct (scalar_eqb (SStr a) k) eqn:E.
  - apply scalar_eqb_str in E. subst. tauto.
  - apply IH. tauto.
Qed.

Lemma present_in_group_none (df : DataFrame) (by_ col a : string) :
  ~ In (SStr a) (map (field df by_) (rows df)) ->
  present_in_group df by_ col (SStr a) = [].
Proof.
  unfold present_in_group.
  induction (rows df) as [|r rs IH]; cbn [map In omap list_omap]; [easy|].
  intros H. destruct (scalar_eqb (SStr a) (field df by_ r)) eqn:E.
  - apply scalar_eqb_str in E. tauto.
  - apply IH. tauto.
Qed.

(** The entry that [reindex] gives a label: the mean of the durations
    present in its group, NaN when there is none. *)
Lemma reindex_entry (df : DataFrame) (by_ col : string)
    (s : list (scalar * option Q)) (a : string) :
  groupby_mean df by_ col = Ok s ->
  default None (lookup_key (SStr a) s) =
  mean_of (present_in_group df by_ col (SStr a)).
Proof.
  intros H. unfold groupby_mean in H.
  destruct (getitem df by_) as [ks|] eqn:Eks; [|discriminate]. simpl in H.
  destruct (getitem df col) as [vs|] eqn:Evs; [|discriminate]. simpl in H.
  destruct (nums_of vs) as [xs|] eqn:Exs; [|discriminate]. simpl in H.
  injection H as <-.
  apply getitem_field in Eks, Evs. subst ks vs.
  destruct (In_str_dec a (map (field df by_) (rows df))) as [Hin|Hout].
  - rewrite lookup_key_str_in by now apply group_key_str.
    simpl. rewrite mean_present_mean_of. f_equal.
    now apply group_values_rows.
  - rewrite lookup_key_str_out by now rewrite group_key_str.
    simpl. now rewrite present_in_group_none.
Qed.

(** ** The Task report: means by status *)

(** C4, as stated, fails: with one "Yes" result on file, the report writes
    a line for "Partial" (and for "No"), with the value NaN. *)
Lemma status_without_data_is_written :
  ~ absent_without_data (files (run_all one_timed_task initial)).
Proof.
  intros H.
  eapply (H _ "Partial" None).
  - vm_compute. reflexivity.
  - vm_compute. reflexivity.
  - vm_compute. do 6 right. left. reflexivity.
Qed.

Lemma reindex_entries (df : DataFrame) (s : list (scalar * option Q)) :
  groupby_mean df "success" "duration_seconds" = Ok s ->
  reindex s status_labels = map (status_entry df) status_labels.
Proof.
  intros H. unfold reindex, status_entry.
  apply map_ext. intros a. now rewrite (reindex_entry _ _ _ _ _ H).
Qed.

(** C4, amended. When the Task table has rows and the report goes through,
    it ends with the bar chart of the three statuses and one line for each
    of Yes, Partial, No, in this order; the value of a status is the mean of
    the durations present among its rows, and NaN (shown as nan, not as
    zero) when it has none. *)
Theorem status_means_in_fixed_order (fs : gmap string csv) (task_df : DataFrame) :
  load_from_csv TASK_CSV fs = Ok task_df ->
  empty task_df = false ->
  snd (report_task fs) = Ok tt ->
  (exists pre,
      fst (report_task fs) =
      pre ++ Pyplot (BarChart (map (status_entry task_df) status_labels))
          :: map (fun kv => WriteAvgTime (fst kv) (snd kv))
                 (map (status_entry task_df) status_labels)) /\
  (forall label,
      In label status_labels ->
      present_in_group task_df "success" "duration_seconds" (SStr label) = [] ->
      In (WriteAvgTime (SStr label) None) (fst (report_task fs))).
Proof.
  intros Hload Hne Hok.
  assert (Hpre : exists pre,
      fst (report_task fs) =
      pre ++ Pyplot (BarChart (map (status_entry task_df) status_labels))
          :: map (fun kv => WriteAvgTime (fst kv) (snd kv))
                 (map (status_entry task_df) status_labels)).
  { revert Hok. unfold report_task.
    rewrite Hload, next_try_ok, Hne. cbn [negb]. rewrite next_show.
    destruct (groupby_mean task_df "success" "duration_seconds") as [s|] eqn:Es;
      [|discriminate].
    rewrite next_try_ok.
    destruct (groupby_mean task_df "task_name" "duration_seconds") as [t|];
      [|discriminate].
    rewrite next_try_ok.
    destruct (d ← getitem task_df "duration_seconds"; nums_of d) as [ds|];
      [|discriminate].
    rewrite next_try_ok, next_show.
    change (reindex s ["Yes"; "Partial"; "No"]) with (reindex s status_labels).
    rewrite (reindex_entries _ _ Es).
    destruct t as [|kt t]; [discriminate|].
    cbn [bar_plot]. rewrite next_show, show_all_ok.
    set (by_task := kt :: t).
    rewrite (next_ok (map _ by_task, Ok tt) _ tt) by reflexivity.
    cbn [status_labels map bar_plot]. rewrite next_show, show_all_ok.
    intros _.
    exists (ShowFrame task_df :: Pyplot (BoxPlot (present ds))
              :: Pyplot (BarChart by_task)
              :: map (fun kv => WriteAvgTime (fst kv) (snd kv)) by_task).
    cbn [fst snd app]. reflexivity. }
  split; [exact Hpre|].
  destruct Hpre as (pre & ->). intros label Hin Hnone.
  apply in_or_app. right. right.
  apply in_map_iff. exists (status_entry task_df label). split.
  - unfold status_entry. now rewrite Hnone.
  - now apply in_map.
Qed.

Lemma status_means_in_fixed_order_witness :
  In (WriteAvgTime (SStr "Partial") None)
     (fst (report_task (files (run_all one_timed_task initial)))).
Proof.
  refine (proj2 (status_means_in_fixed_order
                   (files (run_all one_timed_task initial))
                   one_timed_task_frame _ _ _) "Partial" _ _).
  - vm_compute. reflexivity.
  - reflexivity.
  - vm_compute. reflexivity.
  - right. left. reflexivity.
  - vm_compute. reflexivity.
Defined.

(** ** Columns of a loaded table *)

Lemma nth_zip_with_cell (dts : list dtype) (l : list cell) (j : nat) :
  (j < length dts)%nat -> (j < length l)%nat ->
  nth j (zip_with cell_value dts l) SNaN =
  cell_value (nth j dts Object) (nth j l (CText "")).
Proof.
  revert l j. induction dts as [|dt dts IH]; intros [|c l] [|j] H1 H2;
    simpl in *; try lia; [reflexivity|].
  apply IH; lia.
Qed.

(** The column [name] of a loaded table: the cells of that column of the
    file, each read at the type found for the column. *)
Lemma getitem_loaded (cols : list string) (lines : list (list cell))
    (name : string) (j : nat) :
  index_of name cols = Some j ->
  (j < length cols)%nat ->
  Forall (fun l => length l = length cols) lines ->
  getitem (mkDataFrame cols
             (map (fun r => zip_with cell_value (dtypes (length cols) lines) r) lines))
          name =
  Ok (map (cell_value (infer_dtype (column j lines))) (column j lines)).
Proof.
  intros Hi Hj Hl. unfold getitem. cbn [columns rows]. rewrite Hi. f_equal.
  unfold column. rewrite !map_map.
  apply map_ext_in. intros l Hin.
  rewrite Forall_forall in Hl. specialize (Hl l).
  rewrite nth_zip_with_cell.
  - now rewrite nth_dtypes.
  - now rewrite length_dtypes.
  - rewrite Hl; [exact Hj|]. now apply list_elem_of_In.
Qed.

Lemma infer_dtype_durations (cs : list cell) :
  cs <> [] -> Forall duration_like cs -> infer_dtype cs = Float64.
Proof.
  intros Hne H. unfold infer_dtype.
  assert (Hnum : forallb is_numeric (map classify cs) = true).
  { clear Hne. induction H as [|c cs [->|[q ->]] _ IH]; simpl; auto. }
  destruct cs as [|c cs]; [congruence|].
  inversion H as [|? ? Hc _]; subst.
  cbn [map]. cbn [map] in Hnum. rewrite Hnum.
  assert (Hint : is_TInt (classify c) = false)
    by (destruct Hc as [->|[q ->]]; reflexivity).
  cbn [forallb]. rewrite Hint. reflexivity.
Qed.

Lemma infer_dtype_text (cs : list cell) :
  cs <> [] -> Forall text_cell cs -> infer_dtype cs = Object.
Proof.
  intros Hne H. unfold infer_dtype.
  destruct cs as [|c cs]; [congruence|].
  inversion H as [|? ? Hc _]; subst. unfold text_cell in Hc.
  cbn [map forallb]. rewrite Hc. reflexivity.
Qed.

Lemma nums_of_ok (l : list scalar) :
  Forall (fun v => exists x, num_of v = Ok x) l ->
  exists xs, nums_of l = Ok xs /\ length xs = length l.
Proof.
  induction 1 as [|v l [x Hx] _ (xs & IH & Hlen)].
  - now exists [].
  - exists (x :: xs). cbn [nums_of]. rewrite Hx. simpl. rewrite IH. simpl.
    split; [reflexivity|]. now rewrite Hlen.
Qed.

Lemma durations_numeric (cs : list cell) :
  Forall duration_like cs ->
  Forall (fun v => exists x, num_of v = Ok x) (map (cell_value Float64) cs).
Proof.
  intros H. apply Forall_map.
  eapply Forall_impl; [exact H|].
  intros c [->|[q ->]]; simpl; eauto.
Qed.

(** ** Files written by the forms *)


Lemma save_to_csv_other (R : record) (path other : string) (fs : gmap string csv) :
  other <> path -> save_to_csv R path fs !! other = fs !! other.
Proof.
  intros Hne. unfold save_to_csv.
  destruct (negb (isfile fs path)); now apply lookup_insert_ne.
Qed.

Lemma task_line_dict (i : inputs) (d : option Q) : task_line (line_of (task_dict i d)).
Proof.
  unfold task_line, line_of, task_dict, values. cbn [map snd to_cell].
  do 7 eexists. split; [reflexivity|].
  destruct d as [q|]; cbn [duration_field]; [|now left].
  destruct (Qeq_bool q 0); [now left|right; now exists q].
Qed.






(** ** The report on well-formed files *)

Lemma bind_ok {A B} (a : A) (k : A -> result B) : mbind k (Ok a) = k a.
Proof. reflexivity. Qed.


Lemma empty_loaded (cols : list string) (lines : list (list cell))
    (g : list cell -> list scalar) :
  cols <> [] -> lines <> [] -> empty (mkDataFrame cols (map g lines)) = false.
Proof.
  intros Hc Hl. destruct cols; [congruence|]. destruct lines; [congruence|].
  reflexivity.
Qed.


Lemma insert_key_nonempty (k : scalar) (l : list scalar) : insert_key k l <> [].
Proof. destruct l as [|k' l]; simpl; [discriminate|]. now destruct (scalar_leb k k'). Qed.

Lemma group_keys_nonempty (s : string) (ks : list scalar) :
  sort_keys (unique_keys (List.filter notna (SStr s :: ks))) <> [].
Proof. cbn [List.filter notna unique_keys sort_keys fold_right]. apply insert_key_nonempty. Qed.


Lemma groupby_mean_ok (df : DataFrame) (by_ col : string)
    (ks vs : list scalar) (xs : list (option Q)) :
  getitem df by_ = Ok ks -> getitem df col = Ok vs -> nums_of vs = Ok xs ->
  groupby_mean df by_ col =
  Ok (map (fun k => (k, mean_present (group_values k ks xs)))
          (sort_keys (unique_keys (List.filter notna ks)))).
Proof.
  intros H1 H2 H3. unfold groupby_mean.
  now rewrite H1, bind_ok, H2, bind_ok, H3, bind_ok.
Qed.

Lemma text_cell_task_name (t : task_t) : text_cell (CText (task_name t)).
Proof. destruct t; vm_compute; reflexivity. Qed.

Lemma text_cell_success_name (s : success_t) : text_cell (CText (success_name s)).
Proof. destruct s; vm_compute; reflexivity. Qed.

Lemma task_columns_of_lines (lines : list (list cell)) :
  Forall task_line lines ->
  Forall text_cell (column 2 lines) /\
  Forall text_cell (column 3 lines) /\
  Forall duration_like (column 4 lines).
Proof.
  intros H. unfold column. repeat split; apply Forall_map;
    (eapply Forall_impl; [exact H|]);
    intros l (a & b & t & s & d & c & n & -> & Hd); cbn [nth].
  - apply text_cell_task_name.
  - apply text_cell_success_name.
  - exact Hd.
Qed.

Lemma column_nonempty (j : nat) (lines : list (list cell)) :
  lines <> [] -> column j lines <> [].
Proof. destruct lines; [congruence|discriminate]. Qed.

Lemma task_line_width (l : list cell) : task_line l -> length l = length task_columns.
Proof. now intros (a & b & t & s & d & c & n & -> & _). Qed.


Lemma names_nonempty_task : Forall (fun k => k <> "") task_columns.
Proof. repeat constructor; discriminate. Qed.

Lemma names_nonempty_exit : Forall (fun k => k <> "") exit_columns.
Proof. repeat constructor; discriminate. Qed.


Lemma nums_of_floats (qs : list Q) : nums_of (map SFloat qs) = Ok (map Some qs).
Proof.
  induction qs as [|q qs IH]; [reflexivity|].
  cbn [map nums_of num_of]. now rewrite bind_ok, IH, bind_ok.
Qed.

Lemma present_some (qs : list Q) : present (map Some qs) = qs.
Proof.
  unfold present. induction qs as [|q qs IH]; [reflexivity|].
  cbn [map omap list_omap id]. f_equal. exact IH.
Qed.

Lemma all_num_some (qs : list Q) : forallb is_num (map Some qs) = true.
Proof. induction qs as [|q qs IH]; [reflexivity|exact IH]. Qed.

(** On numbers, with difficulties that are not zero, the fit raises
    nothing; it carries the rank warning exactly when all difficulties are
    equal (in particular when there is one point). *)
Lemma polyfit1_floats (ds ss : list Q) :
  ds <> [] -> length ds = length ss ->
  Forall (fun d => ~ (d == 0)%Q) ds ->
  exists line,
    polyfit1 (map SFloat ds) (map SFloat ss) = Ok line /\
    rank_warning line = all_equal (hd 0%Q ds) ds.
Proof.
  intros Hne Hlen Hnz. unfold polyfit1.
  rewrite !nums_of_floats, !bind_ok.
  destruct ds as [|d ds]; [congruence|].
  cbn [map]. rewrite <- (map_cons Some d ds).
  rewrite !length_map, Hlen, Nat.eqb_refl. cbn [negb].
  rewrite !all_num_some. cbn [andb negb].
  rewrite !present_some. cbn [hd].
  destruct (all_equal d (d :: ds)).
  - inversion Hnz as [|? ? Hd _]; subst.
    rewrite (Qeq_bool_false _ Hd). eexists. split; reflexivity.
  - eexists. split; reflexivity.
Qed.


Lemma float_cells_duration_like (qs : list Q) : Forall duration_like (map CFloat qs).
Proof. apply Forall_map, Forall_forall. intros q _. right. now exists q. Qed.

Lemma float_values (qs : list Q) :
  map (cell_value Float64) (map CFloat qs) = map SFloat qs.
Proof. rewrite map_map. reflexivity. Qed.




(** ** The report never raises *)




(** * Further properties of the page *)

(** ** What a run writes *)

Lemma files_next_state (i : inputs) (σ : state) :
  files (next_state i σ) =
  match written i σ with
  | Some (path, R) => save_to_csv R path (files σ)
  | None => files σ
  end.
Proof.
  rewrite next_state_forms, forms_clicked. unfold written.
  destruct (clicked i) as [[]|] eqn:E; try reflexivity.
  - unfold consent_tab. rewrite (st_button_true _ _ E).
    now destruct (consent_given i).
  - unfold demographics_tab. now rewrite (st_button_true _ _ E).
  - unfold start_timer. now rewrite (st_button_true _ _ E).
  - unfold stop_timer. rewrite (st_button_true _ _ E).
    now destruct (session_state σ !! "start_time").
  - unfold save_task. now rewrite (st_button_true _ _ E).
  - unfold exit_tab. now rewrite (st_button_true _ _ E).
Qed.

(** What a run does to the files, by the record it saves. *)
Lemma files_after_run (i : inputs) (σ : state) :
  match written i σ with
  | Some (path, R) =>
      files (next_state i σ) !! path =
        Some (match files σ !! path with
              | Some f => f ++ [line_of R]
              | None => [map CText (keys R); line_of R]
              end) /\
      (forall other, other <> path ->
         files (next_state i σ) !! other = files σ !! other)
  | None => files (next_state i σ) = files σ
  end.
Proof.
  rewrite files_next_state.
  destruct (written i σ) as [[path R]|]; [|reflexivity]. split.
  - destruct (files σ !! path) as [f|] eqn:E.
    + rewrite (save_to_csv_old _ _ _ _ E). apply lookup_insert_eq.
    + rewrite (save_to_csv_new _ _ _ E). apply lookup_insert_eq.
  - intros other Hne. now apply save_to_csv_other.
Qed.

Lemma file_grows_in_a_run (i : inputs) (σ : state) (path : string) (f : csv) :
  files σ !! path = Some f ->
  exists extra, files (next_state i σ) !! path = Some (f ++ extra).
Proof.
  intros Hf. pose proof (files_after_run i σ) as H.
  destruct (written i σ) as [[p R]|].
  - destruct H as [Hp Ho]. destruct (String.eqb_spec path p) as [->|Hne].
    + rewrite Hp, Hf. now exists [line_of R].
    + rewrite (Ho _ Hne), Hf. exists []. now rewrite app_nil_r.
  - rewrite H, Hf. exists []. now rewrite app_nil_r.
Qed.

(** X1. A run changes one file at most, the file of the form that was
    submitted, and only by adding one line at its end (after the header,
    when the file is new); every other file is left as it was.  A timer
    click, an unchecked consent and a run without click change no file. *)
Theorem run_changes_one_file_at_most (i : inputs) (σ : state) :
  match written i σ with
  | Some (path, R) =>
      files (next_state i σ) !! path =
        Some (match files σ !! path with
              | Some f => f ++ [line_of R]
              | None => [map CText (keys R); line_of R]
              end) /\
      (forall other, other <> path ->
         files (next_state i σ) !! other = files σ !! other)
  | None => files (next_state i σ) = files σ
  end.
Proof.
  rewrite files_next_state.
  destruct (written i σ) as [[path R]|]; [|reflexivity]. split.
  - destruct (files σ !! path) as [f|] eqn:E.
    + rewrite (save_to_csv_old _ _ _ _ E). apply lookup_insert_eq.
    + rewrite (save_to_csv_new _ _ _ E). apply lookup_insert_eq.
  - intros other Hne. now apply save_to_csv_other.
Qed.

(** X2. Stored lines are never changed or removed: whatever runs follow,
    a file that exists keeps its content as the beginning of its later
    content. *)
Theorem stored_lines_stay (runs : list inputs) (σ : state) (path : string) (f : csv) :
  files σ !! path = Some f ->
  exists extra, files (run_all runs σ) !! path = Some (f ++ extra).
Proof.
  revert σ f. induction runs as [|i runs IH]; intros σ f Hf.
  - exists []. now rewrite app_nil_r.
  - destruct (file_grows_in_a_run i σ path f Hf) as (e1 & H1).
    destruct (IH _ _ H1) as (e2 & H2).
    exists (e1 ++ e2). cbn [run_all fold_left].
    change (fold_left (fun σ i => next_state i σ) runs (next_state i σ))
      with (run_all runs (next_state i σ)).
    now rewrite H2, app_assoc.
Qed.

(** ** The files as the trace of the submissions *)

Lemma grown_snoc (cols : list string) (R : record) (old : option csv)
    (lines : list (list cell)) :
  keys R = cols ->
  grown cols
    (Some (match old with
           | Some f => f ++ [line_of R]
           | None => [map CText (keys R); line_of R]
           end)) lines =
  grown cols old (line_of R :: lines).
Proof.
  intros <-. destruct old as [f|]; cbn [grown table_file].
  - now rewrite <- app_assoc.
  - reflexivity.
Qed.

Lemma run_all_cons (i : inputs) (runs : list inputs) (σ : state) :
  run_all (i :: runs) σ = run_all runs (next_state i σ).
Proof. reflexivity. Qed.

Lemma grown_nil (cols : list string) (old : option csv) : grown cols old [] = old.
Proof. destruct old; cbn [grown table_file]; [|reflexivity]. now rewrite app_nil_r. Qed.

(** The file of a form after a trace: what was there, and then the lines
    of the submissions of that form, in order. *)
Lemma run_all_grown (path : string) (cols : list string) (sel : inputs -> bool)
    (dict : inputs -> state -> record) :
  (forall i σ, sel i = true -> written i σ = Some (path, dict i σ)) ->
  (forall i σ, sel i = false ->
     match written i σ with Some (p, _) => p <> path | None => True end) ->
  (forall i σ, keys (dict i σ) = cols) ->
  forall runs σ,
    files (run_all runs σ) !! path =
    grown cols (files σ !! path) (lines_written sel dict runs σ).
Proof.
  intros Hyes Hno Hkeys runs.
  induction runs as [|i runs IH]; intros σ.
  - cbn [lines_written]. now rewrite grown_nil.
  - rewrite run_all_cons, IH. cbn [lines_written].
    pose proof (files_after_run i σ) as Hrun.
    destruct (sel i) eqn:Es.
    + rewrite (Hyes _ σ Es) in Hrun. destruct Hrun as [Hp _].
      rewrite Hp. cbn [app]. now apply grown_snoc.
    + specialize (Hno _ σ Es). cbn [app].
      destruct (written i σ) as [[p R]|].
      * destruct Hrun as [_ Ho]. rewrite (Ho path); [reflexivity|congruence].
      * now rewrite Hrun.
Qed.

Lemma lines_written_stateless (sel : inputs -> bool) (d : inputs -> record)
    (runs : list inputs) (σ : state) :
  lines_written sel (fun i _ => d i) runs σ =
  map (fun i => line_of (d i)) (List.filter sel runs).
Proof.
  revert σ. induction runs as [|i runs IH]; intros σ; [reflexivity|].
  cbn [lines_written List.filter]. rewrite IH. now destruct (sel i).
Qed.

Lemma length_lines_written (sel : inputs -> bool) (dict : inputs -> state -> record)
    (runs : list inputs) (σ : state) :
  length (lines_written sel dict runs σ) = length (List.filter sel runs).
Proof.
  revert σ. induction runs as [|i runs IH]; intros σ; [reflexivity|].
  cbn [lines_written List.filter]. rewrite length_app, IH.
  now destruct (sel i).
Qed.

Lemma st_button_clicked (i : inputs) (b : button) :
  st_button i b = true -> clicked i = Some b.
Proof. unfold st_button. apply bool_decide_eq_true_1. Qed.

Lemma st_button_not_clicked (i : inputs) (b : button) :
  st_button i b = false -> clicked i <> Some b.
Proof. unfold st_button. apply bool_decide_eq_false_1. Qed.

Ltac other_path :=
  let H := fresh in intros H; vm_compute in H; discriminate H.

Lemma consent_file_of_trace (runs : list inputs) (σ : state) :
  files (run_all runs σ) !! CONSENT_CSV =
  grown consent_columns (files σ !! CONSENT_CSV)
    (map (fun i => line_of (consent_dict i)) (consents runs)).
Proof.
  unfold consents. rewrite <- (lines_written_stateless _ consent_dict runs σ).
  apply run_all_grown; [| |reflexivity].
  - intros i σ' H. apply andb_true_iff in H as [Hb Hg].
    unfold written. now rewrite (st_button_clicked _ _ Hb), Hg.
  - intros i σ' H. unfold written.
    destruct (clicked i) as [[]|] eqn:E; try exact I; try other_path.
    rewrite (st_button_true _ _ E) in H. cbn [andb] in H. now rewrite H.
Qed.

Lemma demographic_file_of_trace (runs : list inputs) (σ : state) :
  files (run_all runs σ) !! DEMOGRAPHIC_CSV =
  grown demographic_columns (files σ !! DEMOGRAPHIC_CSV)
    (map (fun i => line_of (demographic_dict i)) (demographics runs)).
Proof.
  unfold demographics. rewrite <- (lines_written_stateless _ demographic_dict runs σ).
  apply run_all_grown; [| |reflexivity].
  - intros i σ' H. unfold written. now rewrite (st_button_clicked _ _ H).
  - intros i σ' H. apply st_button_not_clicked in H. unfold written.
    destruct (clicked i) as [[]|] eqn:E; try exact I; try other_path;
      try (now destruct (consent_given i); [other_path|]).
    congruence.
Qed.

Lemma exit_file_of_trace (runs : list inputs) (σ : state) :
  files (run_all runs σ) !! EXIT_CSV =
  grown exit_columns (files σ !! EXIT_CSV)
    (map (fun i => line_of (exit_dict i)) (exits runs)).
Proof.
  unfold exits. rewrite <- (lines_written_stateless _ exit_dict runs σ).
  apply run_all_grown; [| |reflexivity].
  - intros i σ' H. unfold written. now rewrite (st_button_clicked _ _ H).
  - intros i σ' H. apply st_button_not_clicked in H. unfold written.
    destruct (clicked i) as [[]|] eqn:E; try exact I; try other_path;
      try (now destruct (consent_given i); [other_path|]).
    congruence.
Qed.

Lemma task_file_of_trace (runs : list inputs) (σ : state) :
  files (run_all runs σ) !! TASK_CSV =
  grown task_columns (files σ !! TASK_CSV)
    (lines_written (fun i => st_button i SaveTask)
       (fun i σ => task_dict i (session_state σ !! "task_duration")) runs σ).
Proof.
  apply run_all_grown; [| |reflexivity].
  - intros i σ' H. unfold written. now rewrite (st_button_clicked _ _ H).
  - intros i σ' H. apply st_button_not_clicked in H. unfold written.
    destruct (clicked i) as [[]|] eqn:E; try exact I; try other_path;
      try (now destruct (consent_given i); [other_path|]).
    congruence.
Qed.

Lemma consent_file_initial (runs : list inputs) :
  files (run_all runs initial) !! CONSENT_CSV =
  table_file consent_columns (map (fun i => line_of (consent_dict i)) (consents runs)).
Proof. now rewrite consent_file_of_trace. Qed.

Lemma demographic_file_initial (runs : list inputs) :
  files (run_all runs initial) !! DEMOGRAPHIC_CSV =
  table_file demographic_columns
    (map (fun i => line_of (demographic_dict i)) (demographics runs)).
Proof. now rewrite demographic_file_of_trace. Qed.

Lemma exit_file_initial (runs : list inputs) :
  files (run_all runs initial) !! EXIT_CSV =
  table_file exit_columns (map (fun i => line_of (exit_dict i)) (exits runs)).
Proof. now rewrite exit_file_of_trace. Qed.

(** X3. From an empty data folder, the Consent, Demographic and Exit files
    hold the header and one line per accepted submission of their form, in
    the order of the submissions, whatever else was clicked in between; a
    form never submitted has no file.  The Task file has one line per
    click on "Save Task Results". *)
Theorem tables_hold_submissions (runs : list inputs) :
  files (run_all runs initial) !! CONSENT_CSV =
    table_file consent_columns
      (map (fun i => line_of (consent_dict i)) (consents runs)) /\
  files (run_all runs initial) !! DEMOGRAPHIC_CSV =
    table_file demographic_columns
      (map (fun i => line_of (demographic_dict i)) (demographics runs)) /\
  files (run_all runs initial) !! EXIT_CSV =
    table_file exit_columns
      (map (fun i => line_of (exit_dict i)) (exits runs)) /\
  exists lines,
    files (run_all runs initial) !! TASK_CSV = table_file task_columns lines /\
    length lines = length (saves runs).
Proof.
  rewrite consent_file_of_trace, demographic_file_of_trace, exit_file_of_trace,
    task_file_of_trace.
  repeat split. eexists. split; [reflexivity|]. apply length_lines_written.
Qed.

(** ** Loading the file of a form *)

Lemma load_table_file (cols : list string) (lines : list (list cell))
    (path : string) (fs : gmap string csv) :
  cols <> [] ->
  Forall (fun k => k <> "") cols ->
  lines <> [] ->
  Forall (fun l => length l = length cols) lines ->
  fs !! path = table_file cols lines ->
  load_from_csv path fs =
  Ok (mkDataFrame cols
        (map (fun r => zip_with cell_value (dtypes (length cols) lines) r) lines)).
Proof.
  intros Hc Hk Hl Hw Hf.
  destruct lines as [|l lines]; [congruence|]. cbn [table_file] in Hf.
  rewrite (load_from_csv_Some _ _ _ Hf), read_csv_shaped.
  - now rewrite (col_names_text _ Hk), length_map.
  - destruct cols; [congruence|discriminate].
  - now rewrite length_map.
Qed.

Lemma column_map (j : nat) {A} (f : A -> list cell) (l : list A) :
  column j (map f l) = map (fun a => nth j (f a) (CText "")) l.
Proof. unfold column. now rewrite map_map. Qed.

Lemma consents_checked (runs : list inputs) :
  Forall (fun i => consent_given i = true) (consents runs).
Proof.
  unfold consents. apply Forall_forall. intros i Hi.
  apply list_elem_of_In, filter_In in Hi as [_ Hi].
  now apply andb_true_iff in Hi as [_ Hi].
Qed.

Lemma map_const_ext {A B} (f : A -> B) (b : B) (l : list A) :
  Forall (fun a => f a = b) l -> map f l = map (fun _ => b) l.
Proof. induction 1 as [|a l Ha _ IH]; [reflexivity|]. cbn [map]. now rewrite Ha, IH. Qed.

(** X4. The Consent part of the report shows the "no data" message exactly
    when no consent was submitted with the box checked; otherwise it shows
    the table, which has one row per checked submission and whose
    [consent_given] column holds [True] in every row: a refusal is never
    stored. *)
Theorem consent_table_holds_agreements (runs : list inputs) :
  (consents runs = [] ->
   report_plain CONSENT_CSV "No consent data available yet."
     (files (run_all runs initial)) =
   ([Info "No consent data available yet."], Ok tt)) /\
  (consents runs <> [] ->
   exists df,
     report_plain CONSENT_CSV "No consent data available yet."
       (files (run_all runs initial)) = ([ShowFrame df], Ok tt) /\
     length (rows df) = length (consents runs) /\
     getitem df "consent_given" = Ok (map (fun _ => SBool true) (consents runs))).
Proof.
  pose proof (consent_file_initial runs) as Hc.
  unfold report_plain. split; intros Hn.
  - rewrite Hn in Hc. cbn [map table_file] in Hc.
    now rewrite (load_from_csv_None _ _ Hc), next_try_ok.
  - set (lines := map (fun i => line_of (consent_dict i)) (consents runs)) in *.
    assert (Hl : lines <> []) by (unfold lines; now destruct (consents runs)).
    assert (Hw : Forall (fun l => length l = length consent_columns) lines).
    { unfold lines. apply Forall_map, Forall_forall. now intros i _. }
    rewrite (load_table_file consent_columns lines _ _ ltac:(discriminate)
               ltac:(repeat constructor; discriminate) Hl Hw Hc).
    rewrite next_try_ok.
    rewrite (empty_loaded consent_columns lines _ ltac:(discriminate) Hl).
    cbn [negb]. eexists. split; [reflexivity|]. cbn [rows]. split.
    + unfold lines. now rewrite !length_map.
    + rewrite (getitem_loaded consent_columns lines "consent_given" 1 eq_refl
                 ltac:(simpl; lia) Hw).
      f_equal. unfold lines. rewrite column_map. cbn [nth line_of consent_dict values map snd to_cell].
      rewrite (map_const_ext (fun i => CText (str_bool (consent_given i))) (CText "True")).
      2: { eapply Forall_impl; [apply consents_checked|]. now intros i ->. }
      rewrite (infer_dtype_class BoolT).
      * rewrite map_map. reflexivity.
      * destruct (consents runs); [congruence|discriminate].
      * apply Forall_map, Forall_forall. now intros i _.
Qed.

(** X5. The Demographic part of the report shows the "no data" message
    exactly when no demographic form was submitted; otherwise it shows the
    table, which has one row per submission and whose [age] column holds
    the submitted ages, as integers, in the order of the submissions. *)
Theorem ages_are_read_back (runs : list inputs) :
  (demographics runs = [] ->
   report_plain DEMOGRAPHIC_CSV "No demographic data available yet."
     (files (run_all runs initial)) =
   ([Info "No demographic data available yet."], Ok tt)) /\
  (demographics runs <> [] ->
   exists df,
     report_plain DEMOGRAPHIC_CSV "No demographic data available yet."
       (files (run_all runs initial)) = ([ShowFrame df], Ok tt) /\
     columns df = demographic_columns /\
     length (rows df) = length (demographics runs) /\
     getitem df "age" = Ok (map (fun i => SInt (age i)) (demographics runs))).
Proof.
  pose proof (demographic_file_initial runs) as Hd.
  unfold report_plain. split; intros Hn.
  - rewrite Hn in Hd. cbn [map table_file] in Hd.
    now rewrite (load_from_csv_None _ _ Hd), next_try_ok.
  - set (lines := map (fun i => line_of (demographic_dict i)) (demographics runs)) in *.
    assert (Hl : lines <> []) by (unfold lines; now destruct (demographics runs)).
    assert (Hw : Forall (fun l => length l = length demographic_columns) lines).
    { unfold lines. apply Forall_map, Forall_forall. now intros i _. }
    rewrite (load_table_file demographic_columns lines _ _ ltac:(discriminate)
               ltac:(repeat constructor; discriminate) Hl Hw Hd).
    rewrite next_try_ok.
    rewrite (empty_loaded demographic_columns lines _ ltac:(discriminate) Hl).
    cbn [negb]. eexists. split; [reflexivity|]. cbn [rows columns].
    split; [reflexivity|]. split.
    + unfold lines. now rewrite !length_map.
    + rewrite (getitem_loaded demographic_columns lines "age" 3 eq_refl
                 ltac:(simpl; lia) Hw).
      f_equal. unfold lines. rewrite column_map.
      cbn [nth line_of demographic_dict values map snd to_cell].
      rewrite (infer_dtype_class Int64).
      * rewrite map_map. apply map_ext. intros i.
        unfold cell_value. now rewrite classify_int.
      * destruct (demographics runs); [congruence|discriminate].
      * apply Forall_map, Forall_forall. intros i _. cbn beta.
        now rewrite classify_int.
Qed.

(** ** The Exit report as a function of the answers *)

Lemma getitem_floats (cols : list string) (lines : list (list cell))
    (name : string) (j : nat) (qs : list Q) :
  index_of name cols = Some j ->
  (j < length cols)%nat ->
  Forall (fun l => length l = length cols) lines ->
  lines <> [] ->
  column j lines = map CFloat qs ->
  getitem (mkDataFrame cols
             (map (fun r => zip_with cell_value (dtypes (length cols) lines) r) lines))
          name = Ok (map SFloat qs).
Proof.
  intros Hi Hj Hw Hl Hc.
  rewrite (getitem_loaded cols lines name j Hi Hj Hw), Hc.
  rewrite infer_dtype_durations, float_values; [reflexivity| |].
  - rewrite <- Hc. now apply column_nonempty.
  - apply float_cells_duration_like.
Qed.

Lemma mean_present_some (qs : list Q) : mean_present (map Some qs) = mean_of qs.
Proof. now rewrite mean_present_mean_of, present_some. Qed.

(** X6. From an empty data folder and with slider answers between 1 and
    5, once an exit questionnaire was submitted the Exit report shows the
    table, the chart of the submitted (difficulty, satisfaction) points
    with the line fitted to them, and as averages the arithmetic means of
    the submitted satisfactions and difficulties, over all submissions in
    their order. *)
Theorem exit_report_of_answers (runs : list inputs) :
  Forall in_slider_range runs ->
  exits runs <> [] ->
  let ds := map difficulty (exits runs) in
  let ss := map satisfaction (exits runs) in
  exists df line,
    polyfit1 (map SFloat ds) (map SFloat ss) = Ok line /\
    length (rows df) = length (exits runs) /\
    report_exit (files (run_all runs initial)) =
    ([ShowFrame df;
      Pyplot (ScatterFit (zip ds ss) line (mean_of ds, mean_of ss));
      WriteAvg "Average Satisfaction" (mean_of ss);
      WriteAvg "Average Difficulty" (mean_of ds)], Ok tt).
Proof.
  intros Hr Hn ds ss.
  pose proof (exit_file_initial runs) as He.
  set (lines := map (fun i => line_of (exit_dict i)) (exits runs)) in *.
  assert (Hl : lines <> []) by (unfold lines; now destruct (exits runs)).
  assert (Hw : Forall (fun l => length l = length exit_columns) lines).
  { unfold lines. apply Forall_map, Forall_forall. now intros i _. }
  assert (Hnz : Forall (fun d => ~ (d == 0)%Q) ds).
  { unfold ds, exits. apply Forall_map, Forall_forall. intros i Hi.
    apply list_elem_of_In, filter_In in Hi as [Hi _].
    rewrite Forall_forall in Hr. apply list_elem_of_In, Hr in Hi.
    destruct Hi as [_ [Hd _]]. intros H0. rewrite H0 in Hd. now apply Hd. }
  assert (Hds : ds <> []) by (unfold ds; now destruct (exits runs)).
  destruct (polyfit1_floats ds ss Hds ltac:(unfold ds, ss; now rewrite !length_map) Hnz)
    as (line & Hfit & _).
  unfold report_exit.
  rewrite (load_table_file exit_columns lines _ _ ltac:(discriminate)
             names_nonempty_exit Hl Hw He).
  set (df := mkDataFrame exit_columns _).
  exists df, line. split; [exact Hfit|]. split.
  { unfold df, lines. cbn [rows]. now rewrite !length_map. }
  rewrite next_try_ok.
  assert (Hemp : empty df = false) by (now apply empty_loaded).
  rewrite Hemp. cbn [negb]. rewrite next_show.
  assert (Gs : getitem df "satisfaction" = Ok (map SFloat ss)).
  { apply (getitem_floats exit_columns lines "satisfaction" 1); try assumption;
      [reflexivity|simpl; lia|].
    unfold lines, ss. rewrite column_map, map_map. reflexivity. }
  assert (Gd : getitem df "difficulty" = Ok (map SFloat ds)).
  { apply (getitem_floats exit_columns lines "difficulty" 2); try assumption;
      [reflexivity|simpl; lia|].
    unfold lines, ds. rewrite column_map, map_map. reflexivity. }
  rewrite Gs, Gd, !bind_ok. unfold mean. rewrite !nums_of_floats, !bind_ok.
  rewrite !next_try_ok, Hfit, next_try_ok.
  rewrite nums_of_floats, next_try_ok, nums_of_floats, next_try_ok.
  rewrite !next_show. cbn [fst snd show].
  now rewrite !present_some, !mean_present_some.
Qed.
(** ** The fitted line is the least squares line *)

































(** ** The timer across runs *)

Lemma session_outside_tasks (i : inputs) (σ : state) :
  outside_tasks i = true -> session_state (next_state i σ) = session_state σ.
Proof.
  intros H. rewrite next_state_forms, forms_clicked.
  unfold outside_tasks in H.
  destruct (clicked i) as [[]|] eqn:E; try discriminate; try reflexivity.
  - unfold consent_tab. rewrite (st_button_true _ _ E).
    now destruct (consent_given i).
  - unfold demographics_tab. now rewrite (st_button_true _ _ E).
  - unfold exit_tab. now rewrite (st_button_true _ _ E).
Qed.

Lemma session_run_all_outside_tasks (runs : list inputs) (σ : state) :
  Forall (fun i => outside_tasks i = true) runs ->
  session_state (run_all runs σ) = session_state σ.
Proof.
  revert σ. induction runs as [|i runs IH]; intros σ H; [reflexivity|].
  inversion H as [|? ? Hi Hruns]; subst.
  rewrite run_all_cons, (IH _ Hruns). now apply session_outside_tasks.
Qed.

(** X10. The timer runs across the other forms: after a start, any number
    of runs that submit consent, demographics or the exit questionnaire (or
    click nothing) leave the session as it is, and the stop that follows
    measures from the start: the duration held is the stop time minus the
    start time, and no start time is held any more. *)
Theorem timer_spans_other_forms (i1 i2 : inputs) (mids : list inputs) (σ : state) :
  clicked i1 = Some StartTimer ->
  Forall (fun i => outside_tasks i = true) mids ->
  clicked i2 = Some StopTimer ->
  let σ2 := next_state i2 (run_all mids (next_state i1 σ)) in
  session_state σ2 !! "task_duration" = Some (time_time i2 - time_time i1)%Q /\
  session_state σ2 !! "start_time" = None.
Proof.
  intros H1 Hm H2 σ2.
  assert (Hs : session_state (run_all mids (next_state i1 σ)) !! "start_time"
               = Some (time_time i1)).
  { rewrite (session_run_all_outside_tasks _ _ Hm), (start_timer_clicked _ _ H1).
    apply lookup_insert_eq. }
  unfold σ2. rewrite (stop_timer_running _ _ _ H2 Hs). cbn [session_state].
  split.
  - rewrite lookup_delete_ne by discriminate. apply lookup_insert_eq.
  - apply lookup_delete_eq.
Qed.

Lemma timer_spans_other_forms_witness :
  session_state
    (next_state (click StopTimer 160 sample_inputs)
       (run_all [click SubmitDemographics 120 sample_inputs;
                 click SubmitExit 140 sample_inputs]
          (next_state (click StartTimer 100 sample_inputs) initial)))
    !! "task_duration" = Some (160 - 100)%Q.
Proof.
  apply (timer_spans_other_forms (click StartTimer 100 sample_inputs)
           (click StopTimer 160 sample_inputs)
           [click SubmitDemographics 120 sample_inputs;
            click SubmitExit 140 sample_inputs] initial).
  - reflexivity.
  - repeat constructor.
  - reflexivity.
Defined.

(** X11. A second start replaces the first: after two starts and a stop the
    duration held is measured from the second start, and the state is the
    one that the second start and the stop alone would have left. *)
Theorem restart_measures_from_last_start (i1 i2 i3 : inputs) (σ : state) :
  clicked i1 = Some StartTimer ->
  clicked i2 = Some StartTimer ->
  clicked i3 = Some StopTimer ->
  let σ3 := next_state i3 (next_state i2 (next_state i1 σ)) in
  session_state σ3 !! "task_duration" = Some (time_time i3 - time_time i2)%Q /\
  σ3 = next_state i3 (next_state i2 σ).
Proof.
  intros H1 H2 H3 σ3. unfold σ3.
  rewrite (start_timer_clicked _ _ H1), !(start_timer_clicked _ _ H2).
  cbn [files session_state].
  rewrite !(stop_timer_running _ _ (time_time i2) H3)
    by (cbn [session_state]; apply lookup_insert_eq).
  cbn [files session_state]. split.
  - rewrite lookup_delete_ne by discriminate. apply lookup_insert_eq.
  - f_equal. apply map_eq. intros k.
    destruct (decide (k = "start_time")) as [->|Hk].
    + now rewrite !lookup_delete_eq.
    + rewrite !lookup_delete_ne by congruence.
      destruct (decide (k = "task_duration")) as [->|Hk'].
      * now rewrite !lookup_insert_eq.
      * rewrite !lookup_insert_ne by congruence. reflexivity.
Qed.

Lemma restart_measures_from_last_start_witness :
  session_state
    (next_state (click StopTimer 130 sample_inputs)
       (next_state (click StartTimer 110 sample_inputs)
          (next_state (click StartTimer 100 sample_inputs) initial)))
    !! "task_duration" = Some (130 - 110)%Q.
Proof.
  apply (restart_measures_from_last_start (click StartTimer 100 sample_inputs)
           (click StartTimer 110 sample_inputs)
           (click StopTimer 130 sample_inputs) initial); reflexivity.
Defined.

(** X12. Stopping twice is stopping once: whatever the session held, the
    second of two stops in a row changes nothing and shows nothing, so the
    duration of the first stop stays. *)
Theorem stop_twice_is_stop_once (i i' : inputs) (σ : state) :
  clicked i = Some StopTimer ->
  clicked i' = Some StopTimer ->
  forms i' (next_state i σ) = (next_state i σ, []) /\
  next_state i' (next_state i σ) = next_state i σ.
Proof.
  intros H H'.
  assert (Hs : session_state (next_state i σ) !! "start_time" = None).
  { destruct (session_state σ !! "start_time") as [start|] eqn:E.
    - rewrite (stop_timer_running _ _ _ H E). apply lookup_delete_eq.
    - rewrite next_state_forms, (stop_timer_idle _ _ H E). exact E. }
  pose proof (stop_timer_idle _ _ H' Hs) as Hf.
  split; [exact Hf|]. now rewrite (next_state_forms i'), Hf.
Qed.

Lemma stop_twice_is_stop_once_witness :
  next_state (click StopTimer 140 sample_inputs)
    (next_state (click StopTimer 130 sample_inputs)
       (next_state (click StartTimer 100 sample_inputs) initial)) =
  next_state (click StopTimer 130 sample_inputs)
    (next_state (click StartTimer 100 sample_inputs) initial).
Proof.
  apply (stop_twice_is_stop_once (click StopTimer 130 sample_inputs)
           (click StopTimer 140 sample_inputs)
           (next_state (click StartTimer 100 sample_inputs) initial));
    reflexivity.
Defined.

(** X13. Saving while the timer runs: a save made after a start without a
    stop in between stores the duration that the session held before the
    start (an earlier measurement, or none), not the running time, and
    clears both session keys; the timer is cancelled, and a stop after the
    save changes nothing and shows nothing. *)
Theorem save_cancels_running_timer (i1 i2 i3 : inputs) (σ : state) :
  clicked i1 = Some StartTimer ->
  clicked i2 = Some SaveTask ->
  clicked i3 = Some StopTimer ->
  let σ2 := next_state i2 (next_state i1 σ) in
  last_line TASK_CSV σ2 =
    Some (line_of (task_dict i2 (session_state σ !! "task_duration"))) /\
  session_state σ2 !! "start_time" = None /\
  session_state σ2 !! "task_duration" = None /\
  forms i3 σ2 = (σ2, []) /\
  next_state i3 σ2 = σ2.
Proof.
  intros H1 H2 H3 σ2.
  assert (Hd : session_state (next_state i1 σ) !! "task_duration" =
               session_state σ !! "task_duration").
  { rewrite (start_timer_clicked _ _ H1). cbn [session_state].
    now rewrite lookup_insert_ne by discriminate. }
  assert (Hs : session_state σ2 !! "start_time" = None).
  { unfold σ2. rewrite (save_task_clicked _ _ H2). cbn [session_state].
    rewrite lookup_delete_ne by discriminate. apply lookup_delete_eq. }
  split; [unfold σ2; now rewrite (last_line_save_task _ _ H2), Hd|].
  split; [exact Hs|]. split.
  - unfold σ2. rewrite (save_task_clicked _ _ H2). apply lookup_delete_eq.
  - pose proof (stop_timer_idle _ _ H3 Hs) as Hf.
    split; [exact Hf|]. now rewrite (next_state_forms i3), Hf.
Qed.

Lemma save_cancels_running_timer_witness :
  last_line TASK_CSV
    (next_state (click SaveTask 150 sample_inputs)
       (next_state (click StartTimer 140 sample_inputs)
          (next_state (click StopTimer 130 sample_inputs)
             (next_state (click StartTimer 100 sample_inputs) initial)))) =
  Some (line_of (task_dict (click SaveTask 150 sample_inputs) (Some (130 - 100)%Q))).
Proof.
  apply (save_cancels_running_timer (click StartTimer 140 sample_inputs)
           (click SaveTask 150 sample_inputs)
           (click StopTimer 160 sample_inputs)
           (next_state (click StopTimer 130 sample_inputs)
              (next_state (click StartTimer 100 sample_inputs) initial)));
    reflexivity.
Defined.

(** ** The store on files it did not start *)







(** ** The Task report of a trace *)

Lemma lines_written_Forall (P : list cell -> Prop) (sel : inputs -> bool)
    (dict : inputs -> state -> record) (runs : list inputs) (σ : state) :
  (forall i σ', P (line_of (dict i σ'))) ->
  Forall P (lines_written sel dict runs σ).
Proof.
  intros HP. revert σ. induction runs as [|i runs IH]; intros σ; [constructor|].
  cbn [lines_written]. destruct (sel i); cbn [app]; [constructor|]; auto.
Qed.

Lemma column_lines_written (j : nat) (g : inputs -> cell) (sel : inputs -> bool)
    (dict : inputs -> state -> record) (runs : list inputs) (σ : state) :
  (forall i σ', nth j (line_of (dict i σ')) (CText "") = g i) ->
  column j (lines_written sel dict runs σ) = map g (List.filter sel runs).
Proof.
  intros Hg. revert σ. induction runs as [|i runs IH]; intros σ; [reflexivity|].
  cbn [lines_written List.filter]. unfold column in *.
  destruct (sel i); cbn [app map]; rewrite IH; [now rewrite Hg|reflexivity].
Qed.

Lemma filter_notna_text (names : list string) :
  List.filter notna (map SStr names) = map SStr names.
Proof. induction names as [|a l IH]; [reflexivity|]. cbn [map List.filter notna]. now rewrite IH. Qed.

Lemma NoDup_list_filter {A} (f : A -> bool) (l : list A) :
  NoDup l -> NoDup (List.filter f l).
Proof.
  induction 1 as [|a l Ha _ IH]; [constructor|].
  cbn [List.filter]. destruct (f a); [|exact IH].
  constructor; [|exact IH].
  intros H. apply Ha. apply list_elem_of_In. apply list_elem_of_In in H.
  now apply filter_In in H as [H _].
Qed.

Lemma NoDup_unique_keys_text (names : list string) :
  NoDup (unique_keys (map SStr names)).
Proof.
  induction names as [|a l IH]; [constructor|].
  cbn [map unique_keys]. constructor.
  - intros H. apply list_elem_of_In, filter_In in H as [_ H].
    now rewrite scalar_eqb_str_refl in H.
  - apply NoDup_list_filter. exact IH.
Qed.

Lemma NoDup_insert_key (k : scalar) (l : list scalar) :
  ~ In k l -> NoDup l -> NoDup (insert_key k l).
Proof.
  induction l as [|k' l IH]; cbn [insert_key]; intros Hk Hl.
  - constructor; [|constructor]. intros H. now apply list_elem_of_In in H.
  - destruct (scalar_leb k k').
    + constructor; [|exact Hl]. intros H. now apply list_elem_of_In in H.
    + inversion Hl as [|? ? Hk' Hl']; subst. constructor.
      * intros H. apply list_elem_of_In, In_insert_key in H.
        destruct H as [->|H]; [apply Hk; now left|].
        apply Hk'. now apply list_elem_of_In.
      * apply IH; [|exact Hl']. intros H. apply Hk. now right.
Qed.

Lemma NoDup_sort_keys (l : list scalar) : NoDup l -> NoDup (sort_keys l).
Proof.
  induction 1 as [|k l Hk _ IH]; [constructor|].
  change (sort_keys (k :: l)) with (insert_key k (sort_keys l)).
  apply NoDup_insert_key; [|exact IH].
  rewrite In_sort_keys. intros H. apply Hk. now apply list_elem_of_In.
Qed.

(** The keys of a grouping by a column of text: each text of the column,
    once. *)
Lemma group_keys_text (names : list string) :
  NoDup (sort_keys (unique_keys (List.filter notna (map SStr names)))) /\
  forall k, In k (sort_keys (unique_keys (List.filter notna (map SStr names))))
            <-> In k (map SStr names).
Proof.
  rewrite filter_notna_text. split.
  - apply NoDup_sort_keys, NoDup_unique_keys_text.
  - intros k. rewrite In_sort_keys. split; [apply In_unique_keys_sub|].
    intros H. pose proof H as H'. apply in_map_iff in H' as (a & <- & _).
    now apply In_unique_keys_str.
Qed.

Lemma cell_value_text (c : cell) :
  text_cell c -> cell_value Object c = SStr (cell_text c).
Proof. unfold text_cell, cell_value. now intros ->. Qed.

Lemma map_fst_entries {A B} (F : A -> B) (keys : list A) :
  map fst (map (fun k => (k, F k)) keys) = keys.
Proof. rewrite map_map. cbn [fst]. apply map_id. Qed.

Lemma task_report_of_trace (runs : list inputs) :
  saves runs <> [] ->
  exists df xs by_task by_status,
    report_task (files (run_all runs initial)) =
      (ShowFrame df :: Pyplot (BoxPlot (present xs)) :: Pyplot (BarChart by_task)
       :: map (fun kv => WriteAvgTime (fst kv) (snd kv)) by_task
       ++ Pyplot (BarChart by_status)
       :: map (fun kv => WriteAvgTime (fst kv) (snd kv)) by_status, Ok tt) /\
    length (rows df) = length (saves runs) /\
    NoDup (map fst by_task) /\
    (forall k, In k (map fst by_task) <-> In k (map saved_task (saves runs))) /\
    map fst by_status = [SStr "Yes"; SStr "Partial"; SStr "No"] /\
    getitem df "duration_seconds" =
      Ok (map (cell_value Float64)
            (column 4 (lines_written (fun i => st_button i SaveTask)
                         (fun i σ => task_dict i (session_state σ !! "task_duration"))
                         runs initial))) /\
    nums_of (map (cell_value Float64)
               (column 4 (lines_written (fun i => st_button i SaveTask)
                            (fun i σ => task_dict i (session_state σ !! "task_duration"))
                            runs initial))) = Ok xs.
Proof.
  intros Hsaves.
  pose proof (task_file_of_trace runs initial) as Hfile.
  change (files initial !! TASK_CSV) with (@None csv) in Hfile.
  cbn [grown] in Hfile.
  set (lines := lines_written _ _ runs initial) in Hfile.
  assert (Hlen : length lines = length (saves runs))
    by apply length_lines_written.
  assert (Hne : lines <> []).
  { intros E. rewrite E in Hlen. destruct (saves runs); [congruence|discriminate]. }
  assert (Hall : Forall task_line lines).
  { apply lines_written_Forall. intros i σ'. apply task_line_dict. }
  assert (Hw : Forall (fun l => length l = length task_columns) lines).
  { eapply Forall_impl; [exact Hall|]. apply task_line_width. }
  assert (Hc2 : column 2 lines =
                map (fun i => CText (task_name (selected_task i))) (saves runs)).
  { apply column_lines_written. reflexivity. }
  destruct (task_columns_of_lines _ Hall) as (Ht & Hs & Hd).
  pose proof (load_table_file task_columns lines _ _ ltac:(discriminate)
                names_nonempty_task Hne Hw Hfile) as Hload.
  set (df := mkDataFrame task_columns _) in Hload.
  assert (He : empty df = false) by (now apply empty_loaded).
  assert (Gt : getitem df "task_name" = Ok (map saved_task (saves runs))).
  { unfold df. rewrite (getitem_loaded task_columns lines "task_name" 2 eq_refl
                          ltac:(simpl; lia) Hw).
    rewrite (infer_dtype_text _ (column_nonempty 2 _ Hne) Ht), Hc2, map_map.
    f_equal. apply map_ext. intros i.
    now rewrite (cell_value_text _ (text_cell_task_name _)). }
  assert (Gs : getitem df "success" =
               Ok (map (cell_value Object) (column 3 lines))).
  { unfold df. rewrite (getitem_loaded task_columns lines "success" 3 eq_refl
                          ltac:(simpl; lia) Hw).
    now rewrite (infer_dtype_text _ (column_nonempty 3 _ Hne) Hs). }
  assert (Gd : getitem df "duration_seconds" =
               Ok (map (cell_value Float64) (column 4 lines))).
  { unfold df. rewrite (getitem_loaded task_columns lines "duration_seconds" 4 eq_refl
                          ltac:(simpl; lia) Hw).
    now rewrite (infer_dtype_durations _ (column_nonempty 4 _ Hne) Hd). }
  destruct (nums_of_ok _ (durations_numeric _ Hd)) as (xs & Hxs & _).
  assert (Hnames : map saved_task (saves runs) =
                   map SStr (map (fun i => task_name (selected_task i)) (saves runs)))
    by now rewrite map_map.
  destruct (group_keys_text (map (fun i => task_name (selected_task i)) (saves runs)))
    as [Hnd Hin].
  rewrite <- Hnames in Hnd, Hin.
  assert (Hkeys : sort_keys (unique_keys (List.filter notna (map saved_task (saves runs))))
                  <> []).
  { destruct (saves runs) as [|i l]; [congruence|]. apply group_keys_nonempty. }
  set (keys := sort_keys _) in *.
  exists df, xs,
    (map (fun k => (k, mean_present (group_values k (map saved_task (saves runs)) xs)))
         keys),
    (reindex
       (map (fun k => (k, mean_present
                            (group_values k (map (cell_value Object) (column 3 lines)) xs)))
            (sort_keys (unique_keys (List.filter notna
                          (map (cell_value Object) (column 3 lines))))))
       ["Yes"; "Partial"; "No"]).
  split; [|split; [|split; [|split; [|split; [|split]]]]].
  - unfold report_task. rewrite Hload, next_try_ok, He. cbn [negb].
    rewrite next_show.
    rewrite (groupby_mean_ok _ _ _ _ _ _ Gs Gd Hxs), next_try_ok.
    rewrite (groupby_mean_ok _ _ _ _ _ _ Gt Gd Hxs), next_try_ok.
    rewrite Gd, bind_ok, Hxs, next_try_ok, next_show.
    fold keys. destruct keys as [|k keys']; [congruence|].
    cbn [map bar_plot]. rewrite next_show, show_all_ok.
    rewrite (next_ok (_, Ok tt) _ tt) by reflexivity.
    cbn [reindex map bar_plot]. rewrite next_show, show_all_ok.
    cbn [fst snd]. reflexivity.
  - unfold df. cbn [rows]. now rewrite length_map.
  - now rewrite map_fst_entries.
  - intros k. rewrite map_fst_entries. apply Hin.
  - reflexivity.
  - exact Gd.
  - exact Hxs.
Qed.


(** X16. After any runs from an empty data folder in which a task result
    was saved, the Task report shows the table (one row per save), the box
    plot, the bar chart and the lines of the averages by task, and then the
    bar chart and the lines of the averages by status.  The averages by
    task have one entry for each task that was saved, none twice, and none
    for a task never saved; the averages by status always have the three
    entries Yes, Partial, No. *)
Theorem task_report_lists_saved_tasks (runs : list inputs) :
  saves runs <> [] ->
  exists df data by_task by_status,
    report_task (files (run_all runs initial)) =
      (ShowFrame df :: Pyplot (BoxPlot data) :: Pyplot (BarChart by_task)
       :: map (fun kv => WriteAvgTime (fst kv) (snd kv)) by_task
       ++ Pyplot (BarChart by_status)
       :: map (fun kv => WriteAvgTime (fst kv) (snd kv)) by_status, Ok tt) /\
    length (rows df) = length (saves runs) /\
    NoDup (map fst by_task) /\
    (forall k, In k (map fst by_task) <-> In k (map saved_task (saves runs))) /\
    map fst by_status = [SStr "Yes"; SStr "Partial"; SStr "No"].
Proof.
  intros Hsaves.
  destruct (task_report_of_trace runs Hsaves)
    as (df & xs & by_task & by_status & Hr & Hl & Hn & Hk & Hs & _).
  now exists df, (present xs), by_task, by_status.
Qed.

Lemma task_report_lists_saved_tasks_witness :
  exists df data by_task by_status,
    report_task (files (run_all one_timed_task initial)) =
      (ShowFrame df :: Pyplot (BoxPlot data) :: Pyplot (BarChart by_task)
       :: map (fun kv => WriteAvgTime (fst kv) (snd kv)) by_task
       ++ Pyplot (BarChart by_status)
       :: map (fun kv => WriteAvgTime (fst kv) (snd kv)) by_status, Ok tt) /\
    length (rows df) = 1%nat /\
    NoDup (map fst by_task) /\
    (forall k, In k (map fst by_task) <-> In k [SStr "Export Data"]) /\
    map fst by_status = [SStr "Yes"; SStr "Partial"; SStr "No"].
Proof.
  apply (task_report_lists_saved_tasks one_timed_task). discriminate.
Defined.

Lemma column_held_durations (runs : list inputs) (σ : state) :
  column 4 (lines_written (fun i => st_button i SaveTask)
              (fun i σ => task_dict i (session_state σ !! "task_duration")) runs σ) =
  map (fun d => to_cell (duration_field d)) (held_durations runs σ).
Proof.
  revert σ. induction runs as [|i runs IH]; intros σ; [reflexivity|].
  cbn [lines_written held_durations]. unfold column in *.
  destruct (st_button i SaveTask); cbn [app map]; now rewrite IH.
Qed.

Lemma nums_of_held (ds : list (option Q)) :
  nums_of (map (cell_value Float64) (map (fun d => to_cell (duration_field d)) ds)) =
  Ok (map timed ds).
Proof.
  induction ds as [|d ds IH]; [reflexivity|].
  cbn [map nums_of]. rewrite IH. unfold timed.
  destruct d as [q|]; cbn [duration_field]; [|reflexivity].
  destruct (Qeq_bool q 0); reflexivity.
Qed.

Lemma present_map {A} (f : A -> option Q) (l : list A) :
  present (map f l) = omap f l.
Proof.
  unfold present. induction l as [|a l IH]; [reflexivity|].
  cbn [map omap list_omap]. rewrite IH. now destruct (f a).
Qed.

Lemma length_held_durations (runs : list inputs) (σ : state) :
  length (held_durations runs σ) = length (saves runs).
Proof.
  revert σ. induction runs as [|i runs IH]; intros σ; [reflexivity|].
  cbn [held_durations]. unfold saves in *. cbn [List.filter].
  rewrite length_app, IH. now destruct (st_button i SaveTask).
Qed.

(** X17. The box plot of the Task report holds the durations that the
    session held at the saves, in the order of the saves, without the saves
    that had no duration and without the durations of zero; the table shows
    those as missing values in [duration_seconds]. *)
Theorem box_plot_holds_timed_saves (runs : list inputs) :
  saves runs <> [] ->
  exists df rest,
    fst (report_task (files (run_all runs initial))) =
      ShowFrame df :: Pyplot (BoxPlot (omap timed (held_durations runs initial)))
      :: rest /\
    getitem df "duration_seconds" =
      Ok (map (fun d => match timed d with Some q => SFloat q | None => SNaN end)
              (held_durations runs initial)) /\
    length (held_durations runs initial) = length (saves runs).
Proof.
  intros Hsaves.
  destruct (task_report_of_trace runs Hsaves)
    as (df & xs & by_task & by_status & Hr & _ & _ & _ & _ & Hg & Hx).
  rewrite column_held_durations in Hg, Hx.
  rewrite nums_of_held in Hx. injection Hx as <-.
  rewrite present_map in Hr.
  exists df. eexists. split; [rewrite Hr; reflexivity|].
  split; [|apply length_held_durations].
  rewrite Hg, map_map. f_equal. apply map_ext. intros d. unfold timed.
  destruct d as [q|]; cbn [duration_field]; [|reflexivity].
  destruct (Qeq_bool q 0); reflexivity.
Qed.

Lemma box_plot_holds_timed_saves_witness :
  exists df rest,
    fst (report_task (files (run_all
           (one_timed_task ++ [click SaveTask 140 sample_inputs]) initial))) =
      ShowFrame df :: Pyplot (BoxPlot [(225 # 2) - 100]%Q) :: rest /\
    getitem df "duration_seconds" = Ok [SFloat ((225 # 2) - 100); SNaN] /\
    length (held_durations (one_timed_task ++ [click SaveTask 140 sample_inputs])
              initial) = 2%nat.
Proof.
  apply (box_plot_holds_timed_saves
           (one_timed_task ++ [click SaveTask 140 sample_inputs])).
  discriminate.
Defined.

(** ** Instances on sample runs *)

Lemma stored_lines_stay_witness :
  exists extra,
    files (run_all [click StartTimer 10 sample_inputs; submit_exit 4 2 sample_inputs]
             (next_state (submit_exit 5 1 sample_inputs) initial)) !! EXIT_CSV =
    Some ([map CText exit_columns; line_of (exit_dict (submit_exit 5 1 sample_inputs))]
          ++ extra).
Proof.
  apply (stored_lines_stay
           [click StartTimer 10 sample_inputs; submit_exit 4 2 sample_inputs]
           (next_state (submit_exit 5 1 sample_inputs) initial) EXIT_CSV).
  reflexivity.
Defined.

Lemma consent_table_holds_agreements_witness :
  exists df,
    report_plain CONSENT_CSV "No consent data available yet."
      (files (run_all [click SubmitConsent 0 sample_inputs; agree 5 sample_inputs]
                initial)) = ([ShowFrame df], Ok tt) /\
    length (rows df) = 1%nat /\
    getitem df "consent_given" = Ok [SBool true].
Proof.
  apply (proj2 (consent_table_holds_agreements
                  [click SubmitConsent 0 sample_inputs; agree 5 sample_inputs])).
  discriminate.
Defined.

Lemma ages_are_read_back_witness :
  exists df,
    report_plain DEMOGRAPHIC_CSV "No demographic data available yet."
      (files (run_all [click SubmitDemographics 0 sample_inputs] initial)) =
    ([ShowFrame df], Ok tt) /\
    columns df = demographic_columns /\
    length (rows df) = 1%nat /\
    getitem df "age" = Ok [SInt 31].
Proof.
  apply (proj2 (ages_are_read_back [click SubmitDemographics 0 sample_inputs])).
  discriminate.
Defined.

Lemma exit_report_of_answers_witness :
  exists df line,
    polyfit1 [SFloat 2; SFloat 3] [SFloat 4; SFloat 3] = Ok line /\
    length (rows df) = 2%nat /\
    report_exit (files (run_all [submit_exit 4 2 sample_inputs;
                                 submit_exit 3 3 sample_inputs] initial)) =
    ([ShowFrame df;
      Pyplot (ScatterFit [(2, 4); (3, 3)]%Q line (Some (5 # 2), Some (7 # 2)));
      WriteAvg "Average Satisfaction" (Some (7 # 2));
      WriteAvg "Average Difficulty" (Some (5 # 2))], Ok tt).
Proof.
  apply (exit_report_of_answers [submit_exit 4 2 sample_inputs;
                                 submit_exit 3 3 sample_inputs]).
  - repeat constructor; vm_compute; discriminate.
  - discriminate.
Defined.
